(** * Counter-pick agent: prompt builder and structured completion client

    A shallow embedding of [app.py] and [helpers.py].

    - Python [str] values are Rocq [string]s; the case and whitespace
      operations ([strip], [capitalize], [upper], [startswith]) are the ASCII
      fragment of the Python ones, characters outside it are left as they are.
    - Python [dict]s with string keys are [gmap string _].
    - Exceptions are values of [exn]; fallible pure code lives in [result],
      code that reads the console, prints or talks to the completion service
      lives in the monad [M], which threads the pending console lines and
      collects the observable events of a run in order. *)

From Stdlib Require Import Ascii String NArith PrimFloat.
From stdpp Require Import base strings list gmap pretty.

Open Scope string_scope.
Open Scope list_scope.

Set Warnings "-register-all".
Set Warnings "-inexact-float".

(** ** Strings *)

Module Str.

Definition code (a : ascii) : N := N_of_ascii a.

(** [str.isspace] on the ASCII range: TAB..CR, FS..US and the blank. *)
Definition is_space (a : ascii) : bool :=
  ((9 <=? code a)%N && (code a <=? 13)%N) || ((28 <=? code a)%N && (code a <=? 32)%N).

Definition is_upper (a : ascii) : bool := (65 <=? code a)%N && (code a <=? 90)%N.
Definition is_lower (a : ascii) : bool := (97 <=? code a)%N && (code a <=? 122)%N.

Definition upper_char (a : ascii) : ascii :=
  if is_lower a then ascii_of_N (code a - 32) else a.
Definition lower_char (a : ascii) : ascii :=
  if is_upper a then ascii_of_N (code a + 32) else a.

Fixpoint map (f : ascii -> ascii) (s : string) : string :=
  match s with
  | "" => ""
  | String a s' => String (f a) (map f s')
  end.

(** [s.upper()] and [s.lower()]. *)
Definition upper (s : string) : string := map upper_char s.
Definition lower (s : string) : string := map lower_char s.

(** [s.capitalize()]: first character upper-cased, the rest lower-cased. *)
Definition capitalize (s : string) : string :=
  match s with
  | "" => ""
  | String a s' => String (upper_char a) (lower s')
  end.

Fixpoint lstrip (s : string) : string :=
  match s with
  | "" => ""
  | String a s' => if is_space a then lstrip s' else s
  end.

Definition rstrip (s : string) : string := String.rev (lstrip (String.rev s)).

(** [s.strip()]. *)
Definition strip (s : string) : string := rstrip (lstrip s).

(** [s.startswith(p)]. *)
Fixpoint startswith (s p : string) : bool :=
  match p, s with
  | "", _ => true
  | String _ _, "" => false
  | String b p', String a s' => if decide (a = b) then startswith s' p' else false
  end.

(** [p in s]. *)
Fixpoint contains (s p : string) : bool :=
  startswith s p ||
  match s with
  | "" => false
  | String _ s' => contains s' p
  end.

(** Number of positions of [s] at which [p] occurs. *)
Fixpoint occurrences (p s : string) : nat :=
  (if startswith s p then 1 else 0) +
  match s with
  | "" => 0
  | String _ s' => occurrences p s'
  end.

(** [c * n] for a string [c]. *)
Fixpoint repeat (c : string) (n : nat) : string :=
  match n with
  | O => ""
  | S n' => c +:+ repeat c n'
  end.

(** Python truthiness of a string, and [a or b] on strings. *)
Definition truthy (s : string) : bool :=
  match s with "" => false | _ => true end.
Definition or_else (a b : string) : string := if truthy a then a else b.

End Str.

(** ** Exceptions and results *)

Inductive exn_class :=
| ValueError | KeyError | AttributeError | EOFError
| APIConnectionError | AuthenticationError | ValidationError
| KeyboardInterrupt.

Record exn := Exn { exn_cls : exn_class; exn_str : string }.

(** [isinstance(e, Exception)]: everything above but [KeyboardInterrupt],
    which derives from [BaseException] only. *)
Definition is_Exception (e : exn) : bool :=
  match exn_cls e with
  | KeyboardInterrupt => false
  | _ => true
  end.

Inductive result (A : Type) :=
| Ok (a : A)
| Raised (e : exn).
Arguments Ok {A} a.
Arguments Raised {A} e.

#[global] Instance result_ret : MRet result := fun A a => Ok a.
#[global] Instance result_bind : MBind result := fun A B k r =>
  match r with
  | Ok a => k a
  | Raised e => Raised e
  end.

(** [d[k]] on a dict: [KeyError] when the key is absent. *)
Definition getitem {V} (d : gmap string V) (k : string) : result V :=
  match d !! k with
  | Some v => Ok v
  | None => Raised (Exn KeyError ("'" +:+ k +:+ "'"))
  end.

(** ** Console, events and the run monad *)

(** A request parameter value: a string, the message list, the response
    model (by class name) or a float. *)
Inductive pvalue :=
| PStr (s : string)
| PMessages (ms : list (gmap string string))
| PModel (name : string)
| PFloat (f : float).

(** What a run does that the outside can observe, in order. *)
Inductive event :=
| EPrint (line : string)                    (* print(line) *)
| EInput (prompt : string)                  (* input(prompt) *)
| EClient (api_key : string)                (* OpenAI(api_key=...) *)
| ENetCall (params : gmap string pvalue).   (* client.beta.chat.completions.parse *)

(** A computation takes the console lines still to be read and returns its
    outcome, the lines left and the events it produced. *)
Definition M (A : Type) : Type :=
  list string -> result A * list string * list event.

#[global] Instance M_ret : MRet M := fun A a stdin => (Ok a, stdin, []).
#[global] Instance M_bind : MBind M := fun A B k m stdin =>
  match m stdin with
  | (Ok a, stdin', evs) =>
      match k a stdin' with
      | (r, stdin'', evs') => (r, stdin'', evs ++ evs')
      end
  | (Raised e, stdin', evs) => (Raised e, stdin', evs)
  end.

Definition raise {A} (e : exn) : M A := fun stdin => (Raised e, stdin, []).

Definition lift {A} (r : result A) : M A := fun stdin => (r, stdin, []).

Definition emit (ev : event) : M unit := fun stdin => (Ok tt, stdin, [ev]).

Definition print (line : string) : M unit := emit (EPrint line).

(** [input(prompt)]: shows the prompt and reads one line; [EOFError] at the
    end of the input. *)
Definition input (prompt : string) : M string := fun stdin =>
  match stdin with
  | line :: stdin' => (Ok line, stdin', [EInput prompt])
  | [] => (Raised (Exn EOFError "EOF when reading a line"), [], [EInput prompt])
  end.

(** [try: body  except Exception as e: handler e]. *)
Definition try_except {A} (body : M A) (handler : exn -> M A) : M A := fun stdin =>
  match body stdin with
  | (Raised e, stdin', evs) =>
      if is_Exception e then
        match handler e stdin' with
        | (r, stdin'', evs') => (r, stdin'', evs ++ evs')
        end
      else (Raised e, stdin', evs)
  | ok => ok
  end.

(** [for x in xs: body x]. *)
Fixpoint for_each {A} (xs : list A) (body : A -> M unit) : M unit :=
  match xs with
  | [] => mret tt
  | x :: xs' => body x ;; for_each xs' body
  end.

Definition outcome {A} (r : result A * list string * list event) : result A := r.1.1.
Definition events {A} (r : result A * list string * list event) : list event := r.2.

(** The requests sent to the completion service during a run. *)
Definition net_calls (evs : list event) : list (gmap string pvalue) :=
  omap (fun ev => match ev with ENetCall p => Some p | _ => None end) evs.

(** The clients constructed during a run. *)
Definition clients (evs : list event) : list string :=
  omap (fun ev => match ev with EClient k => Some k | _ => None end) evs.

(** ** app.py: the input collector and the prompt builder *)

Definition get_user_input : M (gmap string string) :=
  print (Str.repeat "=" 60) ;;
  print "    LEAGUE OF LEGENDS COUNTER-PICK AI AGENT" ;;
  print (Str.repeat "=" 60) ;;
  print "
Enter enemy team champions (or press Enter to skip):
" ;;
  line ← input "Enemy Top: " ;
  let enemy_top := Str.or_else (Str.strip line) "Unknown" in
  line ← input "Enemy Jungle: " ;
  let enemy_jgl := Str.or_else (Str.strip line) "Unknown" in
  line ← input "Enemy Mid: " ;
  let enemy_mid := Str.or_else (Str.strip line) "Unknown" in
  line ← input "Enemy ADC: " ;
  let enemy_adc := Str.or_else (Str.strip line) "Unknown" in
  line ← input "Enemy Support: " ;
  let enemy_support := Str.or_else (Str.strip line) "Unknown" in
  print "
Your role:" ;;
  line ← input "Role (Top/Jungle/Mid/ADC/Support): " ;
  let your_role := Str.capitalize (Str.strip line) in
  mret (<["top" := enemy_top]>
       (<["jungle" := enemy_jgl]>
       (<["mid" := enemy_mid]>
       (<["adc" := enemy_adc]>
       (<["support" := enemy_support]>
       (<["your_role" := your_role]> (∅ : gmap string string))))))).

(** The f-string of [create_prompt]; its expressions are evaluated from left
    to right, so the first absent key is the one reported. *)
Definition create_prompt (enemy_team : gmap string string) (your_role : string)
  : result string :=
  top ← getitem enemy_team "top" ;
  jungle ← getitem enemy_team "jungle" ;
  mid ← getitem enemy_team "mid" ;
  adc ← getitem enemy_team "adc" ;
  support ← getitem enemy_team "support" ;
  mret ("You are an expert League of Legends analyst specializing in champion select strategy.

ENEMY TEAM COMPOSITION:
- Top: " +:+ top +:+ "
- Jungle: " +:+ jungle +:+ "
- Mid: " +:+ mid +:+ "
- ADC: " +:+ adc +:+ "
- Support: " +:+ support +:+ "

YOUR ROLE: " +:+ your_role +:+ "

TASK:
Recommend 3-5 champions for the " +:+ your_role +:+ " role that counter this enemy team composition.

ANALYSIS CRITERIA:
1. **Lane Matchup**: How well does the champion perform in direct lane matchups?
2. **Damage Type**: Consider AP/AD balance (avoid same damage type as team)
3. **Team Composition**: Does the enemy have tanks, assassins, poke, engage, disengage?
4. **Win Conditions**: Identify what the enemy wants to do and how to stop it
5. **Scaling**: Consider early/mid/late game power spikes
6. **Crowd Control**: Does your team need more CC or do you need to avoid CC?
7. **Mobility**: Can you match enemy mobility or do you need to punish immobile enemies?

Provide champions that synergize well against THIS specific enemy composition, not just general strong picks.").

(** ** Service responses and response models

    A response model is a class with annotated fields; the validation of a
    response content against it is read off the declaration, field by field,
    by the rules of the validation library for JSON input: a [str] field
    takes a JSON string, a [List[str]] field a JSON array of strings whose
    length is within the bounds of its [Field], a field without default has
    to be present, and other keys are ignored. The text of a
    validation error is abridged to its first finding. *)

(** The content of a service response, as parsed JSON. *)
Inductive json :=
| JNull
| JBool (b : bool)
| JNum (n : Z)
| JStr (s : string)
| JArr (items : list json)
| JObj (fields : list (string * json)).

(** The value of a key of a JSON object; of two entries with one key the
    later one counts, as in the dict built from the object. *)
Fixpoint obj_get (k : string) (fields : list (string * json)) : option json :=
  match fields with
  | [] => None
  | (k', v) :: rest =>
      match obj_get k rest with
      | Some v' => Some v'
      | None => if decide (k' = k) then Some v else None
      end
  end.

(** The [ValidationError] of a model for the field [loc]. *)
Definition validation_error (model loc msg : string) : exn :=
  Exn ValidationError
      ("1 validation error for " +:+ model +:+ "
" +:+ loc +:+ "
  " +:+ msg).

(** A field annotated [str]. *)
Definition validate_str (model loc : string) (j : json) : result string :=
  match j with
  | JStr s => Ok s
  | _ => Raised (validation_error model loc "Input should be a valid string")
  end.

(** The items of a list annotated [List[str]], one by one. *)
Fixpoint validate_items (model loc : string) (items : list json) : result (list string) :=
  match items with
  | [] => Ok []
  | j :: rest =>
      s ← validate_str model loc j ;
      ss ← validate_items model loc rest ;
      mret (s :: ss)
  end.

(** A field annotated [List[str]], with the optional bounds [min_items] and
    [max_items] of its [Field]. *)
Definition validate_list_str (model loc : string) (min_items max_items : option nat)
    (j : json) : result (list string) :=
  match j with
  | JArr items =>
      ss ← validate_items model loc items ;
      if (match min_items with Some lo => (List.length ss <? lo)%nat | None => false end)
      then Raised (validation_error model loc "List should have more items")
      else if (match max_items with Some hi => (hi <? List.length ss)%nat | None => false end)
      then Raised (validation_error model loc "List should have fewer items")
      else Ok ss
  | _ => Raised (validation_error model loc "Input should be a valid list")
  end.

(** A declared field without default: it has to be there. *)
Definition required {A} (model loc : string) (fields : list (string * json))
    (validate : json -> result A) : result A :=
  match obj_get loc fields with
  | Some j => validate j
  | None => Raised (validation_error model loc "Field required")
  end.

(** What the client needs of a response model [T]: its name and the
    validation of a response content into a [T]. *)
Class BaseModel (T : Type) := {
  model_name : string;
  model_validate : json -> result T
}.

(** [class ChampionRecommendations(BaseModel)]: [champions] is a [List[str]]
    with [min_items=3] and [max_items=5], [reasoning] a [str] and
    [key_threats] a [List[str]]. *)
Record ChampionRecommendations := {
  champions : list string;
  reasoning : string;
  key_threats : list string
}.

(** The validation of a response content against the three fields. *)
Definition ChampionRecommendations_validate (j : json) : result ChampionRecommendations :=
  let model := "ChampionRecommendations" in
  match j with
  | JObj fields =>
      c ← required model "champions" fields
            (validate_list_str model "champions" (Some 3) (Some 5)) ;
      r ← required model "reasoning" fields (validate_str model "reasoning") ;
      k ← required model "key_threats" fields
            (validate_list_str model "key_threats" None None) ;
      mret {| champions := c; reasoning := r; key_threats := k |}
  | _ => Raised (validation_error model "" "Input should be an object")
  end.

#[global] Instance ChampionRecommendations_model : BaseModel ChampionRecommendations := {
  model_name := "ChampionRecommendations";
  model_validate := ChampionRecommendations_validate
}.

(** ** helpers.py: the structured completion client *)

(** What the completion service does with a request: it fails (transport,
    authentication, ...), or it answers with a content. An answer without
    content (a refusal) is not part of the model. *)
Inductive reply :=
| Fails (e : exn)
| Content (j : json).

(** The sampling temperature sent along: the float [0.7], that is the
    binary64 number closest to it. *)
#[warnings="-inexact-float"]
Definition temperature : float := 0.7%float.

Section Client.

Context (environ : gmap string string).
Context (service : gmap string pvalue -> reply).

(** [os.getenv]. *)
Definition getenv (name : string) : option string := environ !! name.

(** [not api_key] for the value [os.getenv] gave. *)
Definition falsy (v : option string) : bool :=
  match v with
  | None => true
  | Some s => negb (Str.truthy s)
  end.

(** [OpenAI(api_key=api_key)]. *)
Definition OpenAI (api_key : string) : M unit := emit (EClient api_key).

(** [client.beta.chat.completions.parse] on the parameters, followed by
    [.choices[0].message.parsed]: one call of the SDK, recorded as one
    [ENetCall], and the content of the answer validated against the response
    model. What the call does as a whole is the [service]; the network
    attempts the client makes underneath one call are those of
    [sdk_service] further down. *)
Definition parse `{BaseModel T} (params : gmap string pvalue) : M T :=
  emit (ENetCall params) ;;
  match service params with
  | Fails e => raise e
  | Content j => lift (model_validate j)
  end.

Definition message (role content : string) : gmap string string :=
  <["role" := role]> (<["content" := content]> ∅).

Definition structured_generator `{BaseModel T} (model prompt : string) : M T :=
  let api_key := getenv "OPENAI_API_KEY" in
  if falsy api_key then
    raise (Exn ValueError
      "OpenAI API key not found! Please set your OPENAI_API_KEY in the .env file.
You can get an API key from: https://platform.openai.com/api-keys

Create a .env file in your project directory with:
OPENAI_API_KEY=your-key-here")
  else
    OpenAI (default "" api_key) ;;
    try_except
      (let params : gmap string pvalue :=
         <["model" := PStr model]>
         (<["messages" := PMessages
              [ message "system"
                  "You are a helpful AI assistant that provides structured, accurate responses.";
                message "user" prompt ]]>
         (<["response_format" := PModel (model_name (T:=T))]> ∅)) in
       let params :=
         if negb (Str.startswith model "gpt-5")
         then <["temperature" := PFloat temperature]> params
         else params in
       parse params)
      (fun e =>
         print ("❌ Error calling OpenAI API: " +:+ exn_str e) ;;
         print "
Troubleshooting tips:" ;;
         print "1. Check that your API key is valid in the .env file" ;;
         print "2. Verify you have API credits available" ;;
         print "3. Ensure the model name is correct" ;;
         print ("4. Model requested: " +:+ model) ;;
         raise e).

Definition structured_generator_with_system_prompt `{BaseModel T}
    (model system_prompt user_prompt : string) : M T :=
  let api_key := getenv "OPENAI_API_KEY" in
  if falsy api_key then
    raise (Exn ValueError "OPENAI_API_KEY not found in .env file!")
  else
    OpenAI (default "" api_key) ;;
    try_except
      (let params : gmap string pvalue :=
         <["model" := PStr model]>
         (<["messages" := PMessages
              [ message "system" system_prompt; message "user" user_prompt ]]>
         (<["response_format" := PModel (model_name (T:=T))]> ∅)) in
       let params :=
         if negb (Str.startswith model "gpt-5")
         then <["temperature" := PFloat temperature]> params
         else params in
       parse params)
      (fun e =>
         print ("❌ Error: " +:+ exn_str e) ;;
         raise e).

(** ** app.py: the program *)

(** [enumerate(xs, 1)]. *)
Definition enumerate1 {A} (xs : list A) : list (nat * A) :=
  zip (seq 1 (List.length xs)) xs.

Definition main : M unit :=
  user_data ← get_user_input ;
  top ← lift (getitem user_data "top") ;
  jungle ← lift (getitem user_data "jungle") ;
  mid ← lift (getitem user_data "mid") ;
  adc ← lift (getitem user_data "adc") ;
  support ← lift (getitem user_data "support") ;
  your_role ← lift (getitem user_data "your_role") ;
  prompt ← lift (create_prompt
                   (<["top" := top]> (<["jungle" := jungle]> (<["mid" := mid]>
                     (<["adc" := adc]> (<["support" := support]> ∅)))))
                   your_role) ;
  let openai_model := "gpt-5" in
  print "
🤖 Analyzing enemy team composition...
" ;;
  try_except
    (result ← structured_generator (T:=ChampionRecommendations) openai_model prompt ;
     print (Str.repeat "=" 60) ;;
     role ← lift (getitem user_data "your_role") ;
     print ("  RECOMMENDED CHAMPIONS FOR " +:+ Str.upper role) ;;
     print (Str.repeat "=" 60) ;;
     for_each (enumerate1 (champions result))
       (fun '(i, champion) => print (pretty i +:+ ". " +:+ champion)) ;;
     print ("
" +:+ Str.repeat "=" 60) ;;
     print "  KEY THREATS TO WATCH" ;;
     print (Str.repeat "=" 60) ;;
     for_each (key_threats result) (fun threat => print ("⚠️  " +:+ threat)) ;;
     print ("
" +:+ Str.repeat "=" 60) ;;
     print "  REASONING" ;;
     print (Str.repeat "=" 60) ;;
     print (reasoning result) ;;
     print (Str.repeat "=" 60))
    (fun e =>
       print ("
❌ Error: " +:+ exn_str e) ;;
       print "
Make sure:" ;;
       print "1. Your .env file exists with OPENAI_API_KEY set" ;;
       print "2. You have installed required packages: pip install openai pydantic python-dotenv" ;;
       print "3. You have API credits available in your OpenAI account").

End Client.

(** ** helpers.py: the connection test *)

(** The keyword arguments of [client.chat.completions.create]. *)
Record create_request := {
  cr_model : string;
  cr_messages : list (gmap string string);
  cr_max_tokens : Z
}.

(** What the service does with a plain completion request: it fails, or it
    answers (the answer itself is not looked at). *)
Inductive create_reply :=
| CreateFails (e : exn)
| Created.

(** What the connection test does that the outside can observe: the events
    of before, and plain completion requests. *)
Inductive conn_event :=
| Shown (ev : event)
| ECreate (req : create_request).

Section Connection.

Context (environ : gmap string string).
Context (create : create_request -> create_reply).

(** The whole body is inside [try], and [except Exception] turns a failure
    into [False]; what is not an [Exception] passes through. The function
    reads no console line. *)
Definition test_api_connection : result bool * list conn_event :=
  let api_key := getenv environ "OPENAI_API_KEY" in
  if falsy api_key then
    (Ok false, [Shown (EPrint "❌ No API key found in .env file")])
  else
    let client := Shown (EClient (default "" api_key)) in
    let req := {| cr_model := "gpt-3.5-turbo";
                  cr_messages := [ <["role" := "user"]> (<["content" := "Hello"]> ∅) ];
                  cr_max_tokens := 5 |} in
    match create req with
    | Created =>
        (Ok true, [client; ECreate req; Shown (EPrint "✅ API connection successful!")])
    | CreateFails e =>
        if is_Exception e
        then (Ok false,
              [client; ECreate req; Shown (EPrint ("❌ API connection failed: " +:+ exn_str e))])
        else (Raised e, [client; ECreate req])
    end.

(** [helpers.py] run as a program. *)
Definition helpers_main : result unit * list conn_event :=
  let '(r, evs) := test_api_connection in
  (match r with Ok _ => Ok tt | Raised e => Raised e end,
   Shown (EPrint "Testing OpenAI API connection...") :: evs).

End Connection.

(** ** The SDK client underneath a call

    [OpenAI(api_key=api_key)] builds the client with the SDK's default
    settings, so with its default of two retries: one call of [parse] is one
    network attempt, and up to two more when an attempt gets no response
    (connection failure, timeout) or a response with status 408, 409, 429 or
    500 and above. What a call then returns or raises is what its last
    attempt gave. The pauses between attempts and a retry header sent by the
    server are left out. The [service] of the client above is what a call
    does as a whole; [sdk_service] is that, for a transport that is asked
    once per attempt. *)

(** What one network attempt gives: no response, an error response, or an
    answer; [e] is the exception the SDK raises for the failure. *)
Inductive attempt :=
| NoResponse (e : exn)
| ErrorStatus (code : Z) (e : exn)
| Answered (j : json).

Definition DEFAULT_MAX_RETRIES : nat := 2.

Definition should_retry (a : attempt) : bool :=
  match a with
  | NoResponse _ => true
  | ErrorStatus code _ =>
      (code =? 408)%Z || (code =? 409)%Z || (code =? 429)%Z || (500 <=? code)%Z
  | Answered _ => false
  end.

Definition attempt_reply (a : attempt) : reply :=
  match a with
  | NoResponse e | ErrorStatus _ e => Fails e
  | Answered j => Content j
  end.

(** One call with [remaining] retries left after [taken] attempts: the
    reply, and the number of attempts made from here on. *)
Fixpoint sdk_request (transport : nat -> gmap string pvalue -> attempt)
    (params : gmap string pvalue) (taken remaining : nat) : reply * nat :=
  let a := transport taken params in
  if should_retry a then
    match remaining with
    | O => (attempt_reply a, 1)
    | S remaining' =>
        let '(r, n) := sdk_request transport params (S taken) remaining' in
        (r, S n)
    end
  else (attempt_reply a, 1).

Definition sdk_service (transport : nat -> gmap string pvalue -> attempt)
    (params : gmap string pvalue) : reply :=
  (sdk_request transport params 0 DEFAULT_MAX_RETRIES).1.

Definition sdk_attempts (transport : nat -> gmap string pvalue -> attempt)
    (params : gmap string pvalue) : nat :=
  (sdk_request transport params 0 DEFAULT_MAX_RETRIES).2.

(** * Vocabulary of the properties *)

(** ** The prompt builder and the input collector *)

(** The five keys [create_prompt] reads. *)
Definition role_keys : list string := ["top"; "jungle"; "mid"; "adc"; "support"].

(** The seven evaluation criteria. *)
Definition criteria : list string :=
  ["Lane Matchup"; "Damage Type"; "Team Composition"; "Win Conditions";
   "Scaling"; "Crowd Control"; "Mobility"].

(** The events of [get_user_input], whatever is typed. *)
Definition get_user_input_events : list event :=
  [ EPrint (Str.repeat "=" 60);
    EPrint "    LEAGUE OF LEGENDS COUNTER-PICK AI AGENT";
    EPrint (Str.repeat "=" 60);
    EPrint "
Enter enemy team champions (or press Enter to skip):
";
    EInput "Enemy Top: "; EInput "Enemy Jungle: "; EInput "Enemy Mid: ";
    EInput "Enemy ADC: "; EInput "Enemy Support: ";
    EPrint "
Your role:";
    EInput "Role (Top/Jungle/Mid/ADC/Support): " ].

(** The team [main] hands to [create_prompt] for five console lines. *)
Definition entered_team (l1 l2 l3 l4 l5 : string) : gmap string string :=
  <["top" := Str.or_else (Str.strip l1) "Unknown"]>
  (<["jungle" := Str.or_else (Str.strip l2) "Unknown"]>
  (<["mid" := Str.or_else (Str.strip l3) "Unknown"]>
  (<["adc" := Str.or_else (Str.strip l4) "Unknown"]>
  (<["support" := Str.or_else (Str.strip l5) "Unknown"]> ∅)))).

(** ** The client *)

(** The request both generators send for a model and a message list. *)
Definition request `{BaseModel T} (model : string) (messages : list (gmap string string))
  : gmap string pvalue :=
  let params : gmap string pvalue :=
    <["model" := PStr model]>
    (<["messages" := PMessages messages]>
    (<["response_format" := PModel (model_name (T:=T))]> ∅)) in
  if negb (Str.startswith model "gpt-5")
  then <["temperature" := PFloat temperature]> params
  else params.

(** The outcome of the one request: the error of the service, or the
    validated content. *)
Definition answer `{BaseModel T} (service : gmap string pvalue -> reply)
    (params : gmap string pvalue) : result T :=
  match service params with
  | Fails e => Raised e
  | Content j => model_validate j
  end.

(** What an [except Exception] handler that prints [lines e] and raises again
    adds to the events. *)
Definition reported {T} (lines : exn -> list string) (r : result T) : list event :=
  match r with
  | Raised e => if is_Exception e then EPrint <$> lines e else []
  | Ok _ => []
  end.

(** The system message of [structured_generator]. *)
Definition system_message : gmap string string :=
  message "system"
    "You are a helpful AI assistant that provides structured, accurate responses.".

(** What the handler of [structured_generator] prints for an error. *)
Definition troubleshooting (model : string) (e : exn) : list string :=
  [ "❌ Error calling OpenAI API: " +:+ exn_str e;
    "
Troubleshooting tips:";
    "1. Check that your API key is valid in the .env file";
    "2. Verify you have API credits available";
    "3. Ensure the model name is correct";
    "4. Model requested: " +:+ model ].

(** The errors of the two generators for a missing credential. *)
Definition missing_credential : exn :=
  Exn ValueError
    "OpenAI API key not found! Please set your OPENAI_API_KEY in the .env file.
You can get an API key from: https://platform.openai.com/api-keys

Create a .env file in your project directory with:
OPENAI_API_KEY=your-key-here".

Definition missing_credential_short : exn :=
  Exn ValueError "OPENAI_API_KEY not found in .env file!".

(** ** The program *)

(** The line [main] prints before it calls the generator. *)
Definition analyzing : event :=
  EPrint "
🤖 Analyzing enemy team composition...
".

(** What the handler of [main] prints for an error. *)
Definition error_report (e : exn) : list event :=
  [ EPrint ("
❌ Error: " +:+ exn_str e);
    EPrint "
Make sure:";
    EPrint "1. Your .env file exists with OPENAI_API_KEY set";
    EPrint "2. You have installed required packages: pip install openai pydantic python-dotenv";
    EPrint "3. You have API credits available in your OpenAI account" ].

(** What [main] prints for a result. *)
Definition result_report (role : string) (result : ChampionRecommendations) : list event :=
  [ EPrint (Str.repeat "=" 60);
    EPrint ("  RECOMMENDED CHAMPIONS FOR " +:+ Str.upper role);
    EPrint (Str.repeat "=" 60) ] ++
  ((fun '(i, champion) => EPrint (pretty i +:+ ". " +:+ champion))
     <$> enumerate1 (champions result)) ++
  [ EPrint ("
" +:+ Str.repeat "=" 60);
    EPrint "  KEY THREATS TO WATCH";
    EPrint (Str.repeat "=" 60) ] ++
  ((fun threat => EPrint ("⚠️  " +:+ threat)) <$> key_threats result) ++
  [ EPrint ("
" +:+ Str.repeat "=" 60);
    EPrint "  REASONING";
    EPrint (Str.repeat "=" 60);
    EPrint (reasoning result);
    EPrint (Str.repeat "=" 60) ].

(** The events that are printed lines. *)
Definition is_print (ev : event) : Prop :=
  match ev with EPrint _ => True | _ => False end.

(** ** The response model *)

(** A result that, when it is a failure, is a schema-validation failure. *)
Definition validated {A} (r : result A) : Prop :=
  match r with
  | Ok _ => True
  | Raised e => exn_cls e = ValidationError
  end.

(** The bounds [min_items] and [max_items] of a list field. *)
Definition within (min_items max_items : option nat) (n : nat) : Prop :=
  match min_items with Some lo => lo <= n | None => True end /\
  match max_items with Some hi => n <= hi | None => True end.

(** ** Sample data *)

(** A team, a response with the given champions, an environment with a
    credential, a service that is down and six console lines. *)
Definition sample_team : gmap string string :=
  <["top" := "Garen"]> (<["jungle" := "Elise"]> (<["mid" := "Ahri"]>
    (<["adc" := "Jinx"]> (<["support" := "Thresh"]> ∅)))).

Definition sample_response (names : list string) : json :=
  JObj [ ("champions", JArr (JStr <$> names));
         ("reasoning", JStr "Strong into melee carries.");
         ("key_threats", JArr [JStr "Yasuo windwall"]) ].

Definition sample_environ : gmap string string := <["OPENAI_API_KEY" := "sk-test"]> ∅.

Definition connection_error : exn := Exn APIConnectionError "Connection error.".

Definition failing_service (params : gmap string pvalue) : reply := Fails connection_error.

Definition sample_lines : list string := ["Yasuo"; ""; " zed "; ""; "  "; "ADC"].

(** The prompt [main] builds from [sample_lines]. *)
Definition sample_prompt : string :=
  match create_prompt (entered_team "Yasuo" "" " zed " "" "  ")
                      (Str.capitalize (Str.strip "ADC")) with
  | Ok p => p
  | Raised _ => ""
  end.

(** A service whose answer is well formed. *)
Definition good_service (params : gmap string pvalue) : reply :=
  Content (sample_response ["Malphite"; "Rammus"; "Poppy"]).

(** A service whose answer has two champions only. *)
Definition short_service (params : gmap string pvalue) : reply :=
  Content (sample_response ["Malphite"; "Rammus"]).

(** ** Further vocabulary *)

(** The lines printed and the prompts shown during a run. *)
Definition printed (evs : list event) : list string :=
  omap (fun ev => match ev with EPrint l => Some l | _ => None end) evs.

Definition prompts (evs : list event) : list string :=
  omap (fun ev => match ev with EInput p => Some p | _ => None end) evs.

(** The empty string, or a string that starts with a character that is no
    white space. *)
Definition starts_clean (s : string) : Prop :=
  match s with
  | "" => True
  | String a _ => Str.is_space a = false
  end.

(** A string without white space at either end. *)
Definition trimmed (s : string) : Prop := Str.strip s = s.

(** The first of the keys [ks] that the dict [d] lacks. *)
Fixpoint first_missing (d : gmap string string) (ks : list string) : option string :=
  match ks with
  | [] => None
  | k :: ks' =>
      match d !! k with
      | Some _ => first_missing d ks'
      | None => Some k
      end
  end.

(** The part of the prompt that holds the six inputs. *)
Definition composition_block (top jungle mid adc support your_role : string) : string :=
  "ENEMY TEAM COMPOSITION:
- Top: " +:+ top +:+ "
- Jungle: " +:+ jungle +:+ "
- Mid: " +:+ mid +:+ "
- ADC: " +:+ adc +:+ "
- Support: " +:+ support +:+ "

YOUR ROLE: " +:+ your_role +:+ "

TASK:
Recommend 3-5 champions for the " +:+ your_role +:+ " role that counter this enemy team composition.".

(** The JSON object that holds the three fields of a recommendation. *)
Definition to_json (v : ChampionRecommendations) : json :=
  JObj [ ("champions", JArr (JStr <$> champions v));
         ("reasoning", JStr (reasoning v));
         ("key_threats", JArr (JStr <$> key_threats v)) ].

(** The keys the response model declares. *)
Definition declared_keys : list string := ["champions"; "reasoning"; "key_threats"].

(** The request of the connection test. *)
Definition probe : create_request :=
  {| cr_model := "gpt-3.5-turbo";
     cr_messages := [ message "user" "Hello" ];
     cr_max_tokens := 5 |}.

(** The requests sent, the clients built and the lines printed during a
    connection test. *)
Definition conn_requests (evs : list conn_event) : list create_request :=
  omap (fun ev => match ev with ECreate r => Some r | _ => None end) evs.

Definition conn_clients (evs : list conn_event) : list string :=
  omap (fun ev => match ev with Shown (EClient k) => Some k | _ => None end) evs.

Definition conn_printed (evs : list conn_event) : list string :=
  omap (fun ev => match ev with Shown (EPrint l) => Some l | _ => None end) evs.

(** A service for the connection test that is up, and one that is down. *)
Definition create_up (req : create_request) : create_reply := Created.

Definition create_down (req : create_request) : create_reply := CreateFails connection_error.

(** An interrupt, which is no [Exception], and a service that raises it. *)
Definition interrupt : exn := Exn KeyboardInterrupt "".

Definition interrupted_service (params : gmap string pvalue) : reply := Fails interrupt.

(** A parsed recommendation. *)
Definition sample_recommendation : ChampionRecommendations :=
  {| champions := ["Malphite"; "Rammus"; "Poppy"];
     reasoning := "Strong into melee carries.";
     key_threats := ["Yasuo windwall"] |}.

(** ** Vocabulary for network attempts, characters and verdicts *)

(** The network attempts made for the calls of a run. *)
Definition network_attempts (transport : nat -> gmap string pvalue -> attempt)
    (evs : list event) : nat :=
  sum_list (sdk_attempts transport <$> net_calls evs).

(** A service that cannot be reached, one that refuses the credential, and
    one that answers at the second attempt. *)
Definition unreachable (taken : nat) (params : gmap string pvalue) : attempt :=
  NoResponse connection_error.

Definition authentication_error : exn :=
  Exn AuthenticationError "Incorrect API key provided.".

Definition unauthorized (taken : nat) (params : gmap string pvalue) : attempt :=
  ErrorStatus 401 authentication_error.

Definition flaky (taken : nat) (params : gmap string pvalue) : attempt :=
  match taken with
  | O => NoResponse connection_error
  | S _ => Answered (sample_response ["Malphite"; "Rammus"; "Poppy"])
  end.

(** The character codes of a string. *)
Definition codes (s : string) : list N := N_of_ascii <$> list_ascii_of_string s.

(** A string of ASCII characters: on these the strings of the model are the
    strings of the program. *)
Definition ascii_only (s : string) : Prop := Forall (fun n => (n < 128)%N) (codes s).

(** The ASCII white space: TAB, LF, VT, FF, CR, FS, GS, RS, US and the
    blank. *)
Definition white_code (n : N) : Prop := (9 <= n <= 13)%N \/ (28 <= n <= 32)%N.

Definition all_white (s : string) : Prop := Forall white_code (codes s).

(** A string that neither starts nor ends with white space. *)
Definition clean_ends (s : string) : Prop :=
  match head (codes s) with Some c => ~ white_code c | None => True end /\
  match last (codes s) with Some c => ~ white_code c | None => True end.

(** [core] is [l] without the white space at its two ends. *)
Definition stripped_of (l core : string) : Prop :=
  exists pre post,
    l = pre +:+ core +:+ post /\ all_white pre /\ all_white post /\ clean_ends core.

(** Upper and lower case on the codes of the ASCII letters. *)
Definition upper_code (n : N) : N :=
  if ((97 <=? n) && (n <=? 122))%N then (n - 32)%N else n.

Definition lower_code (n : N) : N :=
  if ((65 <=? n) && (n <=? 90))%N then (n + 32)%N else n.

(** The first code in upper case, the others in lower case. *)
Definition capitalized_codes (cs : list N) : list N :=
  match cs with
  | [] => []
  | c :: tail => upper_code c :: (lower_code <$> tail)
  end.

(** Two validations with the same verdict: the same value, or a failure of
    the same class. *)
Definition same_verdict {A} (r r' : result A) : Prop :=
  match r, r' with
  | Ok v, Ok v' => v = v'
  | Raised e, Raised e' => exn_cls e = exn_cls e'
  | _, _ => False
  end.

(** * Properties *)

(** ** Strings *)

Section StringFacts.

Implicit Types s t p : string.

Lemma append_assoc s t p : (s +:+ t) +:+ p = s +:+ t +:+ p.
Proof.
  induction s as [|a s IH]; [done|].
  change (String a (s +:+ t) +:+ p = String a (s +:+ t +:+ p)).
  change (String a ((s +:+ t) +:+ p) = String a (s +:+ t +:+ p)).
  by rewrite IH.
Qed.

Lemma startswith_app p t : Str.startswith (p +:+ t) p = true.
Proof.
  induction p as [|a p IH]; simpl.
  - by destruct t.
  - by rewrite decide_True.
Qed.

Lemma contains_here s p : Str.startswith s p = true -> Str.contains s p = true.
Proof. intros H. destruct s; cbn [Str.contains]; by rewrite H. Qed.

Lemma contains_app_r s t p : Str.contains t p = true -> Str.contains (s +:+ t) p = true.
Proof.
  intros H. induction s as [|a s IH]; [done|].
  change (String a s +:+ t) with (String a (s +:+ t)).
  cbn [Str.contains]. rewrite IH. apply orb_true_r.
Qed.

Lemma contains_app_l s t p : Str.contains (p +:+ t) p = true.
Proof. apply contains_here, startswith_app. Qed.

Lemma occurrences_app_r p s t : Str.occurrences p t <= Str.occurrences p (s +:+ t).
Proof.
  induction s as [|a s IH]; [done|].
  change (String a s +:+ t) with (String a (s +:+ t)).
  cbn [Str.occurrences]. lia.
Qed.

Lemma occurrences_here p t : 1 <= Str.occurrences p (p +:+ t).
Proof.
  pose proof (startswith_app p t) as H.
  destruct (p +:+ t); cbn [Str.occurrences]; rewrite H; lia.
Qed.

(** Two copies of [p] kept apart by a non-empty [s] are two occurrences. *)
Lemma occurrences_twice p s t :
  s <> "" -> 2 <= Str.occurrences p (p +:+ s +:+ p +:+ t).
Proof.
  intros Hs.
  destruct s as [|b s]; [done|].
  destruct p as [|a p].
  - change ("" +:+ String b s +:+ "" +:+ t) with (String b (s +:+ t)).
    cbn [Str.occurrences Str.startswith].
    pose proof (occurrences_app_r "" s t) as H1.
    pose proof (occurrences_here "" t) as H2.
    change ("" +:+ t) with t in *. lia.
  - pose proof (startswith_app (String a p) (String b s +:+ String a p +:+ t)) as H1.
    pose proof (occurrences_app_r (String a p) (p +:+ String b s)
                  (String a p +:+ t)) as H2.
    pose proof (occurrences_here (String a p) t) as H3.
    rewrite append_assoc in H2.
    change (String a p +:+ String b s +:+ String a p +:+ t)
      with (String a (p +:+ String b s +:+ String a p +:+ t)) in *.
    cbn [Str.occurrences]. rewrite H1. lia.
Qed.

End StringFacts.

Example strip_sample : Str.strip "   Lee Sin  " = "Lee Sin".
Proof. reflexivity. Qed.

Example or_else_sample : Str.or_else (Str.strip "  ") "Unknown" = "Unknown".
Proof. reflexivity. Qed.

Example occurrences_sample : Str.occurrences "an" "banana" = 2.
Proof. reflexivity. Qed.

(** ** The prompt builder *)

Ltac skip_segment :=
  etrans; [|apply occurrences_app_r].

Ltac find_slot :=
  first [ apply occurrences_here | skip_segment; find_slot ].

Ltac run_create_prompt :=
  unfold create_prompt, getitem;
  repeat match goal with H : _ !! _ = Some _ |- _ => rewrite H; clear H end;
  cbn [mbind mret result_bind result_ret].

(** C5, as stated, fails: with the role [Mid] the value occurs three times in
    the rendered prompt (the label of the mid lane and the two slots of the
    target role), not once. *)
Lemma C5_counterexample :
  exists p, create_prompt sample_team "Mid" = Ok p /\ Str.occurrences "Mid" p = 3.
Proof. eexists. split; [reflexivity | vm_compute; reflexivity]. Qed.

(** C5, amended: every supplied value occurs verbatim in the rendered prompt
    at least once; the target role, which fills two slots of the template,
    at least twice. *)
Theorem C5_prompt_embeds_inputs (enemy_team : gmap string string)
    (top jungle mid adc support your_role : string) :
  enemy_team !! "top" = Some top ->
  enemy_team !! "jungle" = Some jungle ->
  enemy_team !! "mid" = Some mid ->
  enemy_team !! "adc" = Some adc ->
  enemy_team !! "support" = Some support ->
  exists p,
    create_prompt enemy_team your_role = Ok p /\
    Forall (fun v => 1 <= Str.occurrences v p)
           [top; jungle; mid; adc; support; your_role] /\
    2 <= Str.occurrences your_role p.
Proof.
  intros Ht Hj Hm Ha Hs. eexists. split; [by run_create_prompt|].
  split.
  - repeat (apply Forall_cons; split); [find_slot .. | by apply Forall_nil].
  - do 11 skip_segment. by apply occurrences_twice.
Qed.

Lemma C5_prompt_embeds_inputs_witness :
  exists p,
    create_prompt sample_team "Mid" = Ok p /\
    Forall (fun v => 1 <= Str.occurrences v p)
           ["Garen"; "Elise"; "Ahri"; "Jinx"; "Thresh"; "Mid"] /\
    2 <= Str.occurrences "Mid" p.
Proof.
  apply (C5_prompt_embeds_inputs sample_team "Garen" "Elise" "Ahri" "Jinx" "Thresh" "Mid");
    reflexivity.
Defined.

(** C7: given the five role entries and a target role, [create_prompt] does
    not fail; its result is a function of those six values alone (two teams
    that agree on the five roles give the same prompt), it reads no console
    line and produces no event, and the prompt embeds the seven criteria. *)
Theorem C7_create_prompt_pure (enemy_team : gmap string string)
    (top jungle mid adc support your_role : string) :
  enemy_team !! "top" = Some top ->
  enemy_team !! "jungle" = Some jungle ->
  enemy_team !! "mid" = Some mid ->
  enemy_team !! "adc" = Some adc ->
  enemy_team !! "support" = Some support ->
  exists p,
    create_prompt enemy_team your_role = Ok p /\
    Forall (fun c => Str.contains p c = true) criteria /\
    (forall enemy_team' : gmap string string,
        Forall (fun k => enemy_team' !! k = enemy_team !! k) role_keys ->
        create_prompt enemy_team' your_role = Ok p) /\
    (forall stdin, lift (create_prompt enemy_team your_role) stdin = (Ok p, stdin, [])).
Proof.
  intros Ht Hj Hm Ha Hs.
  assert (exists p, create_prompt enemy_team your_role = Ok p /\
                    Forall (fun c => Str.contains p c = true) criteria)
    as (p & Hp & Hc).
  { eexists. split.
    - unfold create_prompt, getitem. rewrite Ht, Hj, Hm, Ha, Hs. reflexivity.
    - repeat (apply Forall_cons; split);
        [do 14 apply contains_app_r; vm_compute; reflexivity .. | by apply Forall_nil]. }
  exists p. repeat split; [done | done | | by unfold lift; rewrite Hp].
  intros team' H. rewrite <- Hp.
  repeat (apply Forall_cons in H as [? H]).
  unfold create_prompt.
  repeat match goal with E : team' !! _ = _ |- _ => unfold getitem at 1; rewrite E; clear E end.
  reflexivity.
Qed.

Lemma C7_create_prompt_pure_witness :
  exists p,
    create_prompt sample_team "Mid" = Ok p /\
    Forall (fun c => Str.contains p c = true) criteria /\
    (forall enemy_team' : gmap string string,
        Forall (fun k => enemy_team' !! k = sample_team !! k) role_keys ->
        create_prompt enemy_team' "Mid" = Ok p) /\
    (forall stdin, lift (create_prompt sample_team "Mid") stdin = (Ok p, stdin, [])).
Proof.
  apply (C7_create_prompt_pure sample_team "Garen" "Elise" "Ahri" "Jinx" "Thresh" "Mid");
    reflexivity.
Defined.

(** ** The input collector *)

(** A run of [get_user_input] on six console lines: it reads exactly these
    six and returns the dict below. *)
Lemma get_user_input_run (l1 l2 l3 l4 l5 l6 : string) (rest : list string) :
  get_user_input (l1 :: l2 :: l3 :: l4 :: l5 :: l6 :: rest) =
  (Ok (<["top" := Str.or_else (Str.strip l1) "Unknown"]>
      (<["jungle" := Str.or_else (Str.strip l2) "Unknown"]>
      (<["mid" := Str.or_else (Str.strip l3) "Unknown"]>
      (<["adc" := Str.or_else (Str.strip l4) "Unknown"]>
      (<["support" := Str.or_else (Str.strip l5) "Unknown"]>
      (<["your_role" := Str.capitalize (Str.strip l6)]> ∅)))))),
   rest, get_user_input_events).
Proof. reflexivity. Qed.

(** C4, as stated, fails: with all six inputs blank the five roles are
    ["Unknown"], but the target role is left empty. *)
Lemma C4_counterexample :
  exists d,
    outcome (get_user_input [""; ""; ""; ""; ""; ""]) = Ok d /\
    d !! "top" = Some "Unknown" /\
    d !! "your_role" = Some "".
Proof. eexists. split; [reflexivity | split; reflexivity]. Qed.

(** C4, amended: when the five role inputs are blank, each of the five role
    values is ["Unknown"]; the target role has no default, it is the
    stripped and capitalized input, hence empty when that input is blank. *)
Theorem C4_blank_roles_default (l1 l2 l3 l4 l5 l6 : string) (rest : list string) :
  Forall (fun l => Str.strip l = "") [l1; l2; l3; l4; l5] ->
  exists d,
    outcome (get_user_input (l1 :: l2 :: l3 :: l4 :: l5 :: l6 :: rest)) = Ok d /\
    Forall (fun k => d !! k = Some "Unknown") role_keys /\
    d !! "your_role" = Some (Str.capitalize (Str.strip l6)) /\
    (Str.strip l6 = "" -> d !! "your_role" = Some "").
Proof.
  intros H. repeat (apply Forall_cons in H as [? H]).
  rewrite get_user_input_run. eexists. split; [reflexivity|].
  repeat match goal with E : Str.strip _ = "" |- _ => rewrite E; clear E end.
  split; [by repeat constructor|].
  split; [reflexivity|].
  intros ->. reflexivity.
Qed.

Lemma C4_blank_roles_default_witness :
  exists d,
    outcome (get_user_input [""; "  "; ""; " "; ""; ""; "left over"]) = Ok d /\
    Forall (fun k => d !! k = Some "Unknown") role_keys /\
    d !! "your_role" = Some (Str.capitalize (Str.strip "")) /\
    (Str.strip "" = "" -> d !! "your_role" = Some "").
Proof.
  apply (C4_blank_roles_default "" "  " "" " " "" "" ["left over"]).
  repeat constructor.
Defined.

(** ** The response model *)

(** Validation succeeds exactly on the values of the annotated type, and
    fails with a [ValidationError] only. *)

Ltac result_simpl :=
  unfold mret, mbind, result_ret, result_bind in *; cbn in *.

Lemma validate_str_ok model loc j s :
  validate_str model loc j = Ok s <-> j = JStr s.
Proof. destruct j; cbn; split; congruence. Qed.

Lemma validate_str_validated model loc j : validated (validate_str model loc j).
Proof. by destruct j. Qed.

Lemma validate_items_ok model loc items ss :
  validate_items model loc items = Ok ss <-> items = JStr <$> ss.
Proof.
  revert ss. induction items as [|j items IH]; intros ss; cbn.
  - destruct ss; cbn; split; congruence.
  - destruct j; result_simpl; try (destruct ss; cbn; split; congruence).
    destruct (validate_items model loc items) as [ss'|e] eqn:E; cbn.
    + destruct ss as [|s0 ss]; cbn; [split; congruence|].
      split.
      * intros [= -> ->]. f_equal. by apply IH.
      * intros [= -> Hi]. apply IH in Hi. congruence.
    + destruct ss as [|s0 ss]; cbn; [split; congruence|].
      split; [congruence|]. intros [= -> Hi]. apply IH in Hi. congruence.
Qed.

Lemma validate_items_validated model loc items :
  validated (validate_items model loc items).
Proof.
  induction items as [|j items IH]; cbn; [done|].
  destruct j; result_simpl; try done.
  by destruct (validate_items model loc items).
Qed.

Lemma JStr_fmap_inj (ss ss' : list string) : JStr <$> ss = JStr <$> ss' -> ss = ss'.
Proof.
  revert ss'. induction ss as [|s ss IH]; intros [|s' ss']; cbn; try congruence.
  intros [= -> Hi]. f_equal. by apply IH.
Qed.

Lemma validate_list_str_ok model loc lo hi j ss :
  validate_list_str model loc lo hi j = Ok ss <->
  j = JArr (JStr <$> ss) /\ within lo hi (List.length ss).
Proof.
  unfold validate_list_str, within.
  destruct j as [| | | |items|]; try (split; [congruence | intros [? _]; congruence]).
  unfold mbind, result_bind.
  destruct (validate_items model loc items) as [ss'|e] eqn:E.
  - apply validate_items_ok in E. subst items.
    set (short := match lo with Some n => (List.length ss' <? n)%nat | None => false end).
    set (long := match hi with Some n => (n <? List.length ss')%nat | None => false end).
    assert (short = false <->
            match lo with Some n => n <= List.length ss' | None => True end) as Hshort.
    { unfold short. destruct lo; [apply Nat.ltb_ge | done]. }
    assert (long = false <->
            match hi with Some n => List.length ss' <= n | None => True end) as Hlong.
    { unfold long. destruct hi; [apply Nat.ltb_ge | done]. }
    split.
    + destruct short; [congruence|]. destruct long; [congruence|].
      intros [= <-]. split; [done|]. split; [by apply Hshort | by apply Hlong].
    + intros [[= ->%JStr_fmap_inj] [Hlo%Hshort Hhi%Hlong]].
      by rewrite Hlo, Hhi.
  - split; [congruence|]. intros [[= Hi] _].
    apply (proj2 (validate_items_ok model loc _ _)) in Hi. congruence.
Qed.

Lemma validate_list_str_validated model loc lo hi j :
  validated (validate_list_str model loc lo hi j).
Proof.
  unfold validate_list_str. destruct j; try done.
  pose proof (validate_items_validated model loc items) as Hv.
  unfold mbind, result_bind. destruct (validate_items model loc items); [|done].
  repeat case_match; done.
Qed.

Lemma required_validated {A} model loc fields (validate : json -> result A) :
  (forall j, validated (validate j)) -> validated (required model loc fields validate).
Proof. intros Hv. unfold required. by case_match. Qed.

Lemma ChampionRecommendations_validated j :
  validated (ChampionRecommendations_validate j).
Proof.
  unfold ChampionRecommendations_validate. destruct j; try done.
  pose proof (required_validated "ChampionRecommendations" "champions" fields _
    (validate_list_str_validated "ChampionRecommendations" "champions" (Some 3) (Some 5))) as H1.
  pose proof (required_validated "ChampionRecommendations" "reasoning" fields _
    (validate_str_validated "ChampionRecommendations" "reasoning")) as H2.
  pose proof (required_validated "ChampionRecommendations" "key_threats" fields _
    (validate_list_str_validated "ChampionRecommendations" "key_threats" None None)) as H3.
  unfold mbind, mret, result_bind, result_ret.
  repeat case_match; done.
Qed.

(** Validation succeeds with [v] exactly on an object whose three declared
    fields hold the values of [v], with three to five champions. *)
Lemma ChampionRecommendations_validate_ok j v :
  ChampionRecommendations_validate j = Ok v <->
  exists fields,
    j = JObj fields /\
    obj_get "champions" fields = Some (JArr (JStr <$> champions v)) /\
    3 <= List.length (champions v) <= 5 /\
    obj_get "reasoning" fields = Some (JStr (reasoning v)) /\
    obj_get "key_threats" fields = Some (JArr (JStr <$> key_threats v)).
Proof.
  unfold ChampionRecommendations_validate.
  split.
  - destruct j as [| | | | |fields]; try congruence.
    unfold mbind, mret, result_bind, result_ret, required.
    destruct (obj_get "champions" fields) as [jc|] eqn:Hc; [|congruence].
    destruct (validate_list_str _ _ _ _ jc) as [c|] eqn:Ec; [|congruence].
    destruct (obj_get "reasoning" fields) as [jr|] eqn:Hr; [|congruence].
    destruct (validate_str _ _ jr) as [r|] eqn:Er; [|congruence].
    destruct (obj_get "key_threats" fields) as [jk|] eqn:Hk; [|congruence].
    destruct (validate_list_str _ _ _ _ jk) as [k|] eqn:Ek; [|congruence].
    intros [= <-]. cbn.
    apply validate_list_str_ok in Ec as [-> [? ?]].
    apply validate_str_ok in Er as ->.
    apply validate_list_str_ok in Ek as [-> _].
    exists fields. unfold within in *. repeat split; first [done | lia].
  - intros (fields & -> & Hc & [Hlo Hhi] & Hr & Hk).
    unfold mbind, mret, result_bind, result_ret, required.
    rewrite Hc, Hr, Hk.
    assert (validate_list_str "ChampionRecommendations" "champions" (Some 3) (Some 5)
              (JArr (JStr <$> champions v)) = Ok (champions v)) as ->
      by (by apply validate_list_str_ok).
    assert (validate_list_str "ChampionRecommendations" "key_threats" None None
              (JArr (JStr <$> key_threats v)) = Ok (key_threats v)) as ->
      by (by apply validate_list_str_ok).
    cbn. by destruct v.
Qed.

(** C1: a service response parses into a [ChampionRecommendations] exactly
    when it is an object whose [champions] field is a list of three to five
    strings and whose [reasoning] and [key_threats] fields are a string and a
    list of strings; the parsed value then holds those champions. With fewer
    than three or more than five names, as with any other ill-formed
    response, parsing raises a schema-validation failure. *)
Theorem C1_response_parsing (j : json) :
  (forall v : ChampionRecommendations,
      model_validate j = Ok v <->
      exists fields,
        j = JObj fields /\
        obj_get "champions" fields = Some (JArr (JStr <$> champions v)) /\
        3 <= List.length (champions v) <= 5 /\
        obj_get "reasoning" fields = Some (JStr (reasoning v)) /\
        obj_get "key_threats" fields = Some (JArr (JStr <$> key_threats v))) /\
  (forall fields names,
      j = JObj fields ->
      obj_get "champions" fields = Some (JArr (JStr <$> names)) ->
      ~ 3 <= List.length names <= 5 ->
      exists e, model_validate (T:=ChampionRecommendations) j = Raised e /\
                exn_cls e = ValidationError) /\
  (forall e, model_validate (T:=ChampionRecommendations) j = Raised e ->
             exn_cls e = ValidationError).
Proof.
  pose proof (ChampionRecommendations_validated j) as Hv.
  change (model_validate (T:=ChampionRecommendations) j)
    with (ChampionRecommendations_validate j).
  split; [intros v; apply ChampionRecommendations_validate_ok|].
  split.
  - intros fields names -> Hc Hn.
    destruct (ChampionRecommendations_validate (JObj fields)) as [v|e] eqn:E.
    + apply ChampionRecommendations_validate_ok in E
        as (fields' & [= <-] & Hc' & Hlen & _).
      rewrite Hc in Hc'. injection Hc' as ->%JStr_fmap_inj. done.
    + by exists e.
  - intros e He. by rewrite He in Hv.
Qed.

Lemma C1_response_parsing_witness :
  (exists v, model_validate (sample_response ["Malphite"; "Rammus"; "Poppy"]) = Ok v /\
             champions v = ["Malphite"; "Rammus"; "Poppy"]) /\
  (exists e, model_validate (T:=ChampionRecommendations)
               (sample_response ["Malphite"; "Rammus"]) = Raised e /\
             exn_cls e = ValidationError) /\
  (exists e, model_validate (T:=ChampionRecommendations)
               (sample_response ["Malphite"; "Rammus"; "Poppy"; "Garen"; "Ornn"; "Sion"])
             = Raised e /\
             exn_cls e = ValidationError).
Proof.
  split; [|split].
  - exists {| champions := ["Malphite"; "Rammus"; "Poppy"];
              reasoning := "Strong into melee carries.";
              key_threats := ["Yasuo windwall"] |}.
    split; [|reflexivity].
    apply (proj1 (C1_response_parsing (sample_response ["Malphite"; "Rammus"; "Poppy"]))).
    eexists. split; [reflexivity|]. cbn. repeat split; lia.
  - apply (proj1 (proj2 (C1_response_parsing (sample_response ["Malphite"; "Rammus"])))
             _ ["Malphite"; "Rammus"] eq_refl eq_refl).
    cbn. lia.
  - apply (proj1 (proj2 (C1_response_parsing
             (sample_response ["Malphite"; "Rammus"; "Poppy"; "Garen"; "Ornn"; "Sion"])))
             _ ["Malphite"; "Rammus"; "Poppy"; "Garen"; "Ornn"; "Sion"] eq_refl eq_refl).
    cbn. lia.
Defined.

(** ** Runs *)

(** How [≫=] and [try_except] run, by the outcome of their first part. *)

Section RunFacts.

Context {A B : Type}.

Lemma bind_run (m : M A) (k : A -> M B) stdin a stdin' evs :
  m stdin = (Ok a, stdin', evs) ->
  (m ≫= k) stdin = (let '(r, stdin'', evs') := k a stdin' in (r, stdin'', evs ++ evs')).
Proof. intros Hm. unfold mbind, M_bind. by rewrite Hm. Qed.

Lemma bind_raised (m : M A) (k : A -> M B) stdin e stdin' evs :
  m stdin = (Raised e, stdin', evs) ->
  (m ≫= k) stdin = (Raised e, stdin', evs).
Proof. intros Hm. unfold mbind, M_bind. by rewrite Hm. Qed.

Lemma try_except_raised (body : M A) (handler : exn -> M A) stdin e stdin' evs :
  body stdin = (Raised e, stdin', evs) ->
  is_Exception e = true ->
  try_except body handler stdin =
  (let '(r, stdin'', evs') := handler e stdin' in (r, stdin'', evs ++ evs')).
Proof. intros Hb He. unfold try_except. by rewrite Hb, He. Qed.

Lemma try_except_fatal (body : M A) (handler : exn -> M A) stdin e stdin' evs :
  body stdin = (Raised e, stdin', evs) ->
  is_Exception e = false ->
  try_except body handler stdin = (Raised e, stdin', evs).
Proof. intros Hb He. unfold try_except. by rewrite Hb, He. Qed.

Lemma try_except_ok (body : M A) (handler : exn -> M A) stdin a stdin' evs :
  body stdin = (Ok a, stdin', evs) ->
  try_except body handler stdin = (Ok a, stdin', evs).
Proof. intros Hb. unfold try_except. by rewrite Hb. Qed.

End RunFacts.

(** A loop whose body prints one line per item. *)
Lemma for_each_run {A} (xs : list A) (body : A -> M unit) (f : A -> event) stdin :
  (forall x stdin', body x stdin' = (Ok tt, stdin', [f x])) ->
  for_each xs body stdin = (Ok tt, stdin, f <$> xs).
Proof.
  intros Hbody. induction xs as [|x xs IH]; [done|].
  cbn [for_each]. erewrite bind_run by apply Hbody. by rewrite IH.
Qed.

Lemma net_calls_fmap_print {A} (xs : list A) (f : A -> event) :
  (forall x, is_print (f x)) -> net_calls (f <$> xs) = [].
Proof.
  intros Hf. induction xs as [|x xs IH]; [done|].
  cbn. specialize (Hf x). by destruct (f x).
Qed.

Ltac run_step v :=
  erewrite (bind_run _ _ _ v) by reflexivity; cbv beta.

Lemma net_calls_app (evs evs' : list event) :
  net_calls (evs ++ evs') = net_calls evs ++ net_calls evs'.
Proof. apply omap_app. Qed.

(** ** The structured completion client *)

Section ClientFacts.

Context (environ : gmap string string).
Context (service : gmap string pvalue -> reply).
Context `{BaseModel T}.

Lemma request_temperature model messages :
  request (T:=T) model messages !! "temperature" =
  if Str.startswith model "gpt-5" then None else Some (PFloat temperature).
Proof. unfold request. by destruct (Str.startswith model "gpt-5"). Qed.

(** [parse] sends one request and reads no console line. *)
Lemma parse_run params stdin :
  parse service params stdin = (answer service params, stdin, [ENetCall params]).
Proof.
  unfold parse, answer. cbn.
  destruct (service params) as [e|j]; cbn; [done|].
  by destruct (model_validate j).
Qed.

Lemma falsy_key (k : string) :
  environ !! "OPENAI_API_KEY" = Some k -> k <> "" ->
  falsy (getenv environ "OPENAI_API_KEY") = false.
Proof. intros Hk Hne. unfold getenv. rewrite Hk. by destruct k. Qed.

(** A run of [structured_generator] with a credential: the client is built,
    one request goes out, and a failure is reported and raised again. *)
Lemma structured_generator_run model prompt stdin k :
  environ !! "OPENAI_API_KEY" = Some k -> k <> "" ->
  let params := request (T:=T) model [system_message; message "user" prompt] in
  structured_generator environ service model prompt stdin =
  (answer service params, stdin,
   EClient k :: ENetCall params :: reported (troubleshooting model) (answer service params)).
Proof.
  intros Hk Hne params. unfold structured_generator.
  rewrite (falsy_key k Hk Hne). unfold getenv. rewrite Hk.
  cbn [default from_option id].
  change (if negb (Str.startswith model "gpt-5") then _ else _) with params.
  unfold OpenAI, emit, try_except, mbind, M_bind.
  rewrite parse_run.
  destruct (answer service params) as [v|e]; cbn; [done|].
  destruct (is_Exception e); reflexivity.
Qed.

Lemma structured_generator_with_system_prompt_run model system_prompt user_prompt stdin k :
  environ !! "OPENAI_API_KEY" = Some k -> k <> "" ->
  let params :=
    request (T:=T) model [message "system" system_prompt; message "user" user_prompt] in
  structured_generator_with_system_prompt environ service
    model system_prompt user_prompt stdin =
  (answer service params, stdin,
   EClient k :: ENetCall params
     :: reported (fun e => ["❌ Error: " +:+ exn_str e]) (answer service params)).
Proof.
  intros Hk Hne params. unfold structured_generator_with_system_prompt.
  rewrite (falsy_key k Hk Hne). unfold getenv. rewrite Hk.
  cbn [default from_option id].
  change (if negb (Str.startswith model "gpt-5") then _ else _) with params.
  unfold OpenAI, emit, try_except, mbind, M_bind.
  rewrite parse_run.
  destruct (answer service params) as [v|e]; cbn; [done|].
  destruct (is_Exception e); reflexivity.
Qed.

Lemma net_calls_reported lines (r : result T) : net_calls (reported lines r) = [].
Proof.
  destruct r as [v|e]; [done|]. unfold reported.
  destruct (is_Exception e); [|done].
  induction (lines e); [done|]. by cbn.
Qed.

(** Without a usable credential each generator raises at once. *)
Lemma structured_generator_no_key model prompt stdin :
  falsy (getenv environ "OPENAI_API_KEY") = true ->
  structured_generator (T:=T) environ service model prompt stdin
  = (Raised missing_credential, stdin, []).
Proof. intros Hk. unfold structured_generator. by rewrite Hk. Qed.

Lemma structured_generator_with_system_prompt_no_key
    model system_prompt user_prompt stdin :
  falsy (getenv environ "OPENAI_API_KEY") = true ->
  structured_generator_with_system_prompt (T:=T) environ service
    model system_prompt user_prompt stdin
  = (Raised missing_credential_short, stdin, []).
Proof. intros Hk. unfold structured_generator_with_system_prompt. by rewrite Hk. Qed.

End ClientFacts.

(** ** The program *)

Section MainFacts.

Context (environ : gmap string string).
Context (service : gmap string pvalue -> reply).

Ltac enter_main l1 l2 l3 l4 l5 l6 rest prompt Hp :=
  unfold main;
  rewrite (bind_run _ _ _ _ _ _ (get_user_input_run l1 l2 l3 l4 l5 l6 rest)); cbv beta;
  run_step (Str.or_else (Str.strip l1) "Unknown");
  run_step (Str.or_else (Str.strip l2) "Unknown");
  run_step (Str.or_else (Str.strip l3) "Unknown");
  run_step (Str.or_else (Str.strip l4) "Unknown");
  run_step (Str.or_else (Str.strip l5) "Unknown");
  run_step (Str.capitalize (Str.strip l6));
  erewrite (bind_run _ _ _ prompt) by (unfold lift; by rewrite <- Hp); cbv beta;
  run_step tt.

(** A run of [main] on six console lines, in terms of the run of the
    generator on the prompt built from them. *)
Lemma main_run (l1 l2 l3 l4 l5 l6 : string) (rest : list string) prompt :
  create_prompt (entered_team l1 l2 l3 l4 l5) (Str.capitalize (Str.strip l6)) = Ok prompt ->
  main environ service (l1 :: l2 :: l3 :: l4 :: l5 :: l6 :: rest) =
  let '(r, rest', evs) :=
    structured_generator (T:=ChampionRecommendations) environ service "gpt-5" prompt rest in
  match r with
  | Ok result =>
      (Ok tt, rest',
       get_user_input_events ++ analyzing :: evs ++
         result_report (Str.capitalize (Str.strip l6)) result)
  | Raised e =>
      if is_Exception e
      then (Ok tt, rest', get_user_input_events ++ analyzing :: evs ++ error_report e)
      else (Raised e, rest', get_user_input_events ++ analyzing :: evs)
  end.
Proof.
  intros Hp.
  destruct (structured_generator _ _ _ _ _) as [[[result|e] rest'] evs] eqn:Hg.
  - enter_main l1 l2 l3 l4 l5 l6 rest prompt Hp.
    erewrite try_except_ok; [reflexivity|].
    erewrite bind_run by exact Hg. cbv beta.
    run_step tt. run_step (Str.capitalize (Str.strip l6)).
    run_step tt. run_step tt.
    erewrite (bind_run _ _ _ tt)
      by (apply (for_each_run _ _
                   (fun '(i, champion) => EPrint (pretty i +:+ ". " +:+ champion)));
          by intros [i c] ?).
    cbv beta.
    run_step tt. run_step tt. run_step tt.
    erewrite (bind_run _ _ _ tt)
      by (by apply (for_each_run _ _ (fun threat => EPrint ("⚠️  " +:+ threat)))).
    cbv beta.
    run_step tt. run_step tt. run_step tt. run_step tt.
    reflexivity.
  - destruct (is_Exception e) eqn:He.
    + enter_main l1 l2 l3 l4 l5 l6 rest prompt Hp.
      erewrite try_except_raised; [| by erewrite bind_raised | done].
      reflexivity.
    + enter_main l1 l2 l3 l4 l5 l6 rest prompt Hp.
      erewrite try_except_fatal; [| by erewrite bind_raised | done].
      reflexivity.
Qed.

Lemma net_calls_result_report role result : net_calls (result_report role result) = [].
Proof.
  unfold result_report. rewrite !net_calls_app.
  rewrite !net_calls_fmap_print; [done | done | by intros [i c]].
Qed.

Lemma entered_prompt_defined l1 l2 l3 l4 l5 role :
  exists prompt, create_prompt (entered_team l1 l2 l3 l4 l5) role = Ok prompt.
Proof. eexists. reflexivity. Qed.

End MainFacts.

Example main_sample_run :
  main sample_environ good_service sample_lines =
  (Ok tt, [],
   get_user_input_events ++
   analyzing ::
   EClient "sk-test" ::
   ENetCall (request (T:=ChampionRecommendations) "gpt-5"
               [system_message; message "user" sample_prompt]) ::
   result_report "Adc"
     {| champions := ["Malphite"; "Rammus"; "Poppy"];
        reasoning := "Strong into melee carries.";
        key_threats := ["Yasuo windwall"] |}).
Proof. vm_compute. reflexivity. Qed.

Example main_sample_lines :
  [ EPrint "  RECOMMENDED CHAMPIONS FOR ADC"; EPrint "1. Malphite"; EPrint "3. Poppy" ]
  ⊆ events (main sample_environ good_service sample_lines).
Proof.
  intros ev Hev. apply list_elem_of_In.
  repeat (apply elem_of_cons in Hev as [-> | Hev]); [vm_compute; tauto .. |].
  by apply elem_of_nil in Hev.
Qed.

Lemma net_calls_main (k : string) (p : gmap string pvalue) (evs : list event) :
  net_calls evs = [] ->
  net_calls (get_user_input_events ++ analyzing :: EClient k :: ENetCall p :: evs) = [p].
Proof.
  intros Hevs. rewrite net_calls_app.
  change (net_calls (analyzing :: EClient k :: ENetCall p :: evs)) with (p :: net_calls evs).
  by rewrite Hevs.
Qed.

(** ** The client, claim by claim *)


(** C2: with a credential, each generator sends one request; it carries no
    [temperature] when the model identifier starts with [gpt-5], and the
    temperature [0.7] for every other identifier. *)
Theorem C2_temperature_by_model (environ : gmap string string)
    (service : gmap string pvalue -> reply) `{BaseModel T}
    (model prompt system_prompt : string) (stdin : list string) (k : string) :
  environ !! "OPENAI_API_KEY" = Some k -> k <> "" ->
  (exists p,
      net_calls (events (structured_generator (T:=T) environ service model prompt stdin))
        = [p] /\
      p !! "temperature" =
        if Str.startswith model "gpt-5" then None else Some (PFloat 0.7%float)) /\
  (exists p,
      net_calls (events (structured_generator_with_system_prompt (T:=T) environ service
                           model system_prompt prompt stdin))
        = [p] /\
      p !! "temperature" =
        if Str.startswith model "gpt-5" then None else Some (PFloat 0.7%float)).
Proof.
  intros Hk Hne. split.
  - rewrite (structured_generator_run environ service model prompt stdin k Hk Hne).
    eexists. split; [|apply request_temperature].
    unfold events. cbn. by rewrite net_calls_reported.
  - rewrite (structured_generator_with_system_prompt_run environ service
               model system_prompt prompt stdin k Hk Hne).
    eexists. split; [|apply request_temperature].
    unfold events. cbn. by rewrite net_calls_reported.
Qed.

Lemma C2_temperature_by_model_witness :
  ((exists p,
      net_calls (events (structured_generator (T:=ChampionRecommendations)
                           sample_environ failing_service "gpt-4-turbo" "Hi" []))
        = [p] /\
      p !! "temperature" = Some (PFloat 0.7%float)) /\
   (exists p,
      net_calls (events (structured_generator_with_system_prompt
                           (T:=ChampionRecommendations)
                           sample_environ failing_service "gpt-4-turbo" "Be brief." "Hi" []))
        = [p] /\
      p !! "temperature" = Some (PFloat 0.7%float))) /\
  ((exists p,
      net_calls (events (structured_generator (T:=ChampionRecommendations)
                           sample_environ failing_service "gpt-5-mini" "Hi" []))
        = [p] /\
      p !! "temperature" = None) /\
   (exists p,
      net_calls (events (structured_generator_with_system_prompt
                           (T:=ChampionRecommendations)
                           sample_environ failing_service "gpt-5-mini" "Be brief." "Hi" []))
        = [p] /\
      p !! "temperature" = None)).
Proof.
  split.
  - apply (C2_temperature_by_model sample_environ failing_service
             "gpt-4-turbo" "Hi" "Be brief." [] "sk-test"); [reflexivity | discriminate].
  - apply (C2_temperature_by_model sample_environ failing_service
             "gpt-5-mini" "Hi" "Be brief." [] "sk-test"); [reflexivity | discriminate].
Defined.

(** C3: without a credential in the environment [structured_generator]
    raises, and no request has been sent. *)
Theorem C3_missing_credential_no_request (environ : gmap string string)
    (service : gmap string pvalue -> reply) `{BaseModel T}
    (model prompt : string) (stdin : list string) :
  environ !! "OPENAI_API_KEY" = None ->
  let r := structured_generator (T:=T) environ service model prompt stdin in
  (exists e, outcome r = Raised e) /\ List.length (net_calls (events r)) = 0.
Proof.
  intros Hk r. subst r.
  rewrite structured_generator_no_key by (unfold getenv; by rewrite Hk).
  split; [by eexists | done].
Qed.

Lemma C3_missing_credential_no_request_witness :
  let r := structured_generator (T:=ChampionRecommendations)
             ∅ failing_service "gpt-5" "Hi" [] in
  (exists e, outcome r = Raised e) /\ List.length (net_calls (events r)) = 0.
Proof.
  apply (C3_missing_credential_no_request ∅ failing_service "gpt-5" "Hi" []).
  reflexivity.
Defined.

(** A call that the service fails: this very error is raised to the caller
    and reported once with its message, after the one call. *)
Lemma generator_service_error (environ : gmap string string)
    (service : gmap string pvalue -> reply) `{BaseModel T}
    (model prompt : string) (stdin : list string) (k : string) (e : exn) :
  environ !! "OPENAI_API_KEY" = Some k -> k <> "" ->
  (forall p, service p = Fails e) ->
  is_Exception e = true ->
  let r := structured_generator (T:=T) environ service model prompt stdin in
  outcome r = Raised e /\
  List.length (net_calls (events r)) = 1 /\
  exists p, events r = EClient k :: ENetCall p :: (EPrint <$> troubleshooting model e).
Proof.
  intros Hk Hne Hs He r. subst r.
  rewrite (structured_generator_run environ service model prompt stdin k Hk Hne).
  unfold answer. rewrite Hs. unfold outcome, events. cbn. rewrite He.
  split; [done|]. split; [done|]. by eexists.
Qed.

(** C10: an empty [OPENAI_API_KEY] is treated as an absent one. In both
    cases each generator raises a [ValueError] whose message names the
    [.env] file, and nothing else happens: no client is constructed and no
    request is sent. *)
Theorem C10_empty_credential (environ : gmap string string)
    (service : gmap string pvalue -> reply) `{BaseModel T}
    (model prompt system_prompt : string) (stdin : list string) :
  environ !! "OPENAI_API_KEY" = None \/ environ !! "OPENAI_API_KEY" = Some "" ->
  let r := structured_generator (T:=T) environ service model prompt stdin in
  let r' := structured_generator_with_system_prompt (T:=T) environ service
              model system_prompt prompt stdin in
  (outcome r = Raised missing_credential /\
   clients (events r) = [] /\ net_calls (events r) = []) /\
  (outcome r' = Raised missing_credential_short /\
   clients (events r') = [] /\ net_calls (events r') = []) /\
  (exn_cls missing_credential = ValueError /\
   Str.contains (exn_str missing_credential) ".env file" = true) /\
  (exn_cls missing_credential_short = ValueError /\
   Str.contains (exn_str missing_credential_short) ".env file" = true).
Proof.
  intros Hk r r'. subst r r'.
  assert (falsy (getenv environ "OPENAI_API_KEY") = true) as Hf
    by (unfold getenv; by destruct Hk as [-> | ->]).
  rewrite structured_generator_no_key by done.
  rewrite structured_generator_with_system_prompt_no_key by done.
  repeat split; vm_compute; reflexivity.
Qed.

Lemma C10_empty_credential_witness :
  let r := structured_generator (T:=ChampionRecommendations)
             (<["OPENAI_API_KEY" := ""]> ∅) failing_service "gpt-5" "Hi" [] in
  let r' := structured_generator_with_system_prompt (T:=ChampionRecommendations)
              (<["OPENAI_API_KEY" := ""]> ∅) failing_service "gpt-5" "Be brief." "Hi" [] in
  (outcome r = Raised missing_credential /\
   clients (events r) = [] /\ net_calls (events r) = []) /\
  (outcome r' = Raised missing_credential_short /\
   clients (events r') = [] /\ net_calls (events r') = []) /\
  (exn_cls missing_credential = ValueError /\
   Str.contains (exn_str missing_credential) ".env file" = true) /\
  (exn_cls missing_credential_short = ValueError /\
   Str.contains (exn_str missing_credential_short) ".env file" = true).
Proof.
  apply (C10_empty_credential (<["OPENAI_API_KEY" := ""]> ∅) failing_service
           "gpt-5" "Hi" "Be brief." []).
  right. reflexivity.
Defined.

(** ** The program, claim by claim *)

(** C8: when the call of the generator in [main] raises an exception, be it
    the missing credential, an error of the service or a schema-validation
    failure, [main] catches it, prints its message and the three hints, and
    ends normally. *)
Theorem C8_errors_surfaced (environ : gmap string string)
    (service : gmap string pvalue -> reply)
    (l1 l2 l3 l4 l5 l6 : string) (rest : list string) (prompt : string) (e : exn) :
  create_prompt (entered_team l1 l2 l3 l4 l5) (Str.capitalize (Str.strip l6)) = Ok prompt ->
  let r := structured_generator (T:=ChampionRecommendations)
             environ service "gpt-5" prompt rest in
  outcome r = Raised e ->
  is_Exception e = true ->
  main environ service (l1 :: l2 :: l3 :: l4 :: l5 :: l6 :: rest)
  = (Ok tt, r.1.2, get_user_input_events ++ analyzing :: events r ++ error_report e).
Proof.
  intros Hp r Hg He. subst r. rewrite (main_run environ service _ _ _ _ _ _ _ _ Hp).
  destruct (structured_generator _ _ _ _ _) as [[r rest'] evs].
  unfold outcome in Hg. cbn in Hg. subst r. by rewrite He.
Qed.

Lemma C8_errors_surfaced_witness :
  let e := validation_error "ChampionRecommendations" "champions"
             "List should have more items" in
  let r := structured_generator (T:=ChampionRecommendations)
             sample_environ short_service "gpt-5" sample_prompt [] in
  main sample_environ short_service sample_lines
  = (Ok tt, r.1.2, get_user_input_events ++ analyzing :: events r ++ error_report e).
Proof.
  intros e.
  apply (C8_errors_surfaced sample_environ short_service
           "Yasuo" "" " zed " "" "  " "ADC" [] sample_prompt e);
    vm_compute; reflexivity.
Defined.

Example capitalize_ADC : Str.capitalize (Str.strip "ADC") = "Adc".
Proof. reflexivity. Qed.

Example capitalize_mid : Str.capitalize (Str.strip " mid ") = "Mid".
Proof. reflexivity. Qed.

(** * Further properties *)

(** ** Trimming and case *)

Section TrimFacts.

Implicit Types s t u : string.

Lemma append_nil_r s : s +:+ "" = s.
Proof.
  induction s as [|a s IH]; [done|].
  change (String a (s +:+ "") = String a s). by rewrite IH.
Qed.

Lemma rev_app_spec s t : String.rev_app s t = String.rev s +:+ t.
Proof.
  revert t. induction s as [|a s IH]; intros t; [done|].
  unfold String.rev. cbn [String.rev_app].
  rewrite (IH (String a t)), (IH (String a "")).
  by rewrite append_assoc.
Qed.

Lemma rev_cons a s : String.rev (String a s) = String.rev s +:+ String a "".
Proof. unfold String.rev at 1. cbn [String.rev_app]. apply rev_app_spec. Qed.

Lemma rev_append s t : String.rev (s +:+ t) = String.rev t +:+ String.rev s.
Proof.
  induction s as [|a s IH].
  - change ("" +:+ t) with t. by rewrite append_nil_r.
  - change (String a s +:+ t) with (String a (s +:+ t)).
    by rewrite !rev_cons, IH, append_assoc.
Qed.

Lemma rev_involutive s : String.rev (String.rev s) = s.
Proof.
  induction s as [|a s IH]; [done|].
  by rewrite rev_cons, rev_append, IH.
Qed.

Lemma lstrip_starts_clean s : starts_clean (Str.lstrip s).
Proof.
  induction s as [|a s IH]; [done|].
  cbn [Str.lstrip]. by destruct (Str.is_space a) eqn:E.
Qed.

Lemma lstrip_clean s : starts_clean s -> Str.lstrip s = s.
Proof. destruct s as [|a s]; [done|]. cbn [starts_clean Str.lstrip]. by intros ->. Qed.

Lemma lstrip_keeps_last u a :
  Str.is_space a = false ->
  exists u', Str.lstrip (u +:+ String a "") = u' +:+ String a "".
Proof.
  intros Ha. induction u as [|b u IH].
  - exists "". change ("" +:+ String a "") with (String a "").
    cbn [Str.lstrip]. by rewrite Ha.
  - change (String b u +:+ String a "") with (String b (u +:+ String a "")).
    cbn [Str.lstrip]. destruct (Str.is_space b); [done|].
    by exists (String b u).
Qed.

Lemma rstrip_starts_clean t : starts_clean t -> starts_clean (Str.rstrip t).
Proof.
  destruct t as [|a t]; [done|]. cbn [starts_clean]. intros Ha.
  unfold Str.rstrip. rewrite rev_cons.
  destruct (lstrip_keeps_last (String.rev t) a Ha) as [u' ->].
  by rewrite rev_append.
Qed.

Lemma rstrip_idemp t : Str.rstrip (Str.rstrip t) = Str.rstrip t.
Proof.
  unfold Str.rstrip. rewrite rev_involutive.
  by rewrite (lstrip_clean _ (lstrip_starts_clean _)).
Qed.

(** What [strip] returns has no white space left at either end. *)
Lemma strip_trimmed s : trimmed (Str.strip s).
Proof.
  unfold trimmed, Str.strip.
  rewrite (lstrip_clean (Str.rstrip (Str.lstrip s))).
  - apply rstrip_idemp.
  - apply rstrip_starts_clean, lstrip_starts_clean.
Qed.

Lemma upper_upper a : Str.upper_char (Str.upper_char a) = Str.upper_char a.
Proof. by destruct a as [[] [] [] [] [] [] [] []]. Qed.

Lemma lower_lower a : Str.lower_char (Str.lower_char a) = Str.lower_char a.
Proof. by destruct a as [[] [] [] [] [] [] [] []]. Qed.

Lemma upper_lower a : Str.upper_char (Str.lower_char a) = Str.upper_char a.
Proof. by destruct a as [[] [] [] [] [] [] [] []]. Qed.

Lemma map_map f g s : Str.map f (Str.map g s) = Str.map (fun a => f (g a)) s.
Proof. induction s as [|a s IH]; [done|]. cbn. by rewrite IH. Qed.

Lemma map_ext f g s : (forall a, f a = g a) -> Str.map f s = Str.map g s.
Proof. intros Hfg. induction s as [|a s IH]; [done|]. cbn. by rewrite Hfg, IH. Qed.

Lemma capitalize_idemp s : Str.capitalize (Str.capitalize s) = Str.capitalize s.
Proof.
  destruct s as [|a s]; [done|]. cbn [Str.capitalize].
  rewrite upper_upper. f_equal. unfold Str.lower. rewrite map_map.
  apply map_ext, lower_lower.
Qed.

Lemma upper_capitalize s : Str.upper (Str.capitalize s) = Str.upper s.
Proof.
  destruct s as [|a s]; [done|]. unfold Str.upper, Str.lower.
  cbn [Str.capitalize Str.map].
  rewrite upper_upper. f_equal. unfold Str.lower. rewrite map_map.
  apply map_ext, upper_lower.
Qed.

End TrimFacts.

(** ** The input collector, further *)

(** When the console ends before the sixth line, [get_user_input] raises
    [EOFError]: every line there was has been read, and one prompt more than
    lines has been shown. *)
Theorem get_user_input_eof (stdin : list string) :
  List.length stdin < 6 ->
  exists evs,
    get_user_input stdin = (Raised (Exn EOFError "EOF when reading a line"), [], evs) /\
    List.length (prompts evs) = S (List.length stdin).
Proof.
  intros Hlen.
  do 6 (destruct stdin as [|? stdin]; [by eexists|]).
  cbn in Hlen. lia.
Qed.

Lemma get_user_input_eof_witness :
  exists evs,
    get_user_input ["Yasuo"; "Lee Sin"]
      = (Raised (Exn EOFError "EOF when reading a line"), [], evs) /\
    List.length (prompts evs) = 3.
Proof. apply (get_user_input_eof ["Yasuo"; "Lee Sin"]). cbn. lia. Defined.

Lemma or_else_unknown_entry l :
  let v := Str.or_else (Str.strip l) "Unknown" in v <> "" /\ trimmed v.
Proof.
  cbv zeta. unfold Str.or_else.
  pose proof (strip_trimmed l) as Ht.
  destruct (Str.strip l) as [|a s] eqn:E; [done|].
  split; [done|]. exact Ht.
Qed.

(** ** The prompt builder, further *)

(** [create_prompt] succeeds exactly when the team has the five role keys;
    otherwise it raises a [KeyError] that names the first of them, in the
    order top, jungle, mid, adc, support, that is absent. *)
Theorem create_prompt_missing_key (enemy_team : gmap string string) (your_role : string) :
  match first_missing enemy_team role_keys with
  | Some k => create_prompt enemy_team your_role = Raised (Exn KeyError ("'" +:+ k +:+ "'"))
  | None => exists p, create_prompt enemy_team your_role = Ok p
  end.
Proof.
  unfold create_prompt, getitem, role_keys. cbn [first_missing].
  destruct (enemy_team !! "top"); [|done].
  destruct (enemy_team !! "jungle"); [|done].
  destruct (enemy_team !! "mid"); [|done].
  destruct (enemy_team !! "adc"); [|done].
  destruct (enemy_team !! "support"); [|done].
  by eexists.
Qed.

(** The prompt opens with the line that sets the analyst, and it holds the
    five picks on labelled lines in the order Top, Jungle, Mid, ADC,
    Support, then the role line and the task sentence that names the role. *)
Theorem create_prompt_layout (enemy_team : gmap string string)
    (top jungle mid adc support your_role : string) :
  enemy_team !! "top" = Some top ->
  enemy_team !! "jungle" = Some jungle ->
  enemy_team !! "mid" = Some mid ->
  enemy_team !! "adc" = Some adc ->
  enemy_team !! "support" = Some support ->
  exists p,
    create_prompt enemy_team your_role = Ok p /\
    Str.startswith p "You are an expert League of Legends analyst" = true /\
    Str.contains p (composition_block top jungle mid adc support your_role) = true.
Proof.
  intros Ht Hj Hm Ha Hs. eexists. split; [by run_create_prompt|].
  split; [reflexivity|].
  match goal with |- Str.contains ?p ?b = true =>
    assert (exists h t, p = h +:+ b +:+ t) as (h & t & ->)
  end.
  { eexists "You are an expert League of Legends analyst specializing in champion select strategy.

", _.
    unfold composition_block. rewrite !append_assoc. reflexivity. }
  apply contains_app_r, (contains_app_l "").
Qed.

Lemma create_prompt_layout_witness :
  exists p,
    create_prompt sample_team "Mid" = Ok p /\
    Str.startswith p "You are an expert League of Legends analyst" = true /\
    Str.contains p (composition_block "Garen" "Elise" "Ahri" "Jinx" "Thresh" "Mid") = true.
Proof.
  apply (create_prompt_layout sample_team "Garen" "Elise" "Ahri" "Jinx" "Thresh" "Mid");
    reflexivity.
Defined.

(** ** The response model, further *)

(** Round trip: the object that holds the three fields of a recommendation
    validates to that recommendation when it has three to five champions,
    and is refused with a [ValidationError] otherwise. Nothing else is asked
    of the fields: names and reasoning may be empty, and so may the list of
    threats. *)
Theorem to_json_round_trip (v : ChampionRecommendations) :
  (3 <= List.length (champions v) <= 5 -> model_validate (to_json v) = Ok v) /\
  (~ 3 <= List.length (champions v) <= 5 ->
   exists e, model_validate (T:=ChampionRecommendations) (to_json v) = Raised e /\
             exn_cls e = ValidationError).
Proof.
  change (model_validate (T:=ChampionRecommendations) (to_json v))
    with (ChampionRecommendations_validate (to_json v)).
  split.
  - intros Hlen. apply ChampionRecommendations_validate_ok.
    eexists. split; [reflexivity|]. repeat split; first [reflexivity | lia].
  - intros Hlen.
    pose proof (ChampionRecommendations_validated (to_json v)) as Hv.
    destruct (ChampionRecommendations_validate (to_json v)) as [v'|e] eqn:E.
    + apply ChampionRecommendations_validate_ok in E
        as (fields & [= <-] & [= Hc%JStr_fmap_inj] & Hlen' & _).
      by rewrite <- Hc in Hlen'.
    + by exists e.
Qed.

Lemma to_json_round_trip_witness :
  model_validate (to_json sample_recommendation) = Ok sample_recommendation.
Proof. apply (proj1 (to_json_round_trip sample_recommendation)). cbn. lia. Defined.

(** Validation looks at the three declared keys only: two objects that
    agree on them, whatever else they hold and in whatever order, get the
    same verdict, that is the same value or a [ValidationError] each. *)
Theorem validate_declared_keys_only (fields fields' : list (string * json)) :
  Forall (fun k => obj_get k fields = obj_get k fields') declared_keys ->
  same_verdict (model_validate (T:=ChampionRecommendations) (JObj fields))
               (model_validate (T:=ChampionRecommendations) (JObj fields')).
Proof.
  intros H. repeat (apply Forall_cons in H as [? H]).
  pose proof (ChampionRecommendations_validated (JObj fields')) as Hv.
  change (same_verdict (ChampionRecommendations_validate (JObj fields))
                       (ChampionRecommendations_validate (JObj fields'))).
  replace (ChampionRecommendations_validate (JObj fields))
    with (ChampionRecommendations_validate (JObj fields')).
  - destruct (ChampionRecommendations_validate (JObj fields')); by cbn.
  - unfold ChampionRecommendations_validate, required.
    repeat match goal with E : obj_get _ fields = _ |- _ => rewrite E; clear E end.
    reflexivity.
Qed.

Lemma validate_declared_keys_only_witness :
  same_verdict
    (model_validate (T:=ChampionRecommendations)
       (JObj [ ("confidence", JNum 9);
               ("key_threats", JArr [JStr "Yasuo windwall"]);
               ("reasoning", JStr "Strong into melee carries.");
               ("champions", JArr (JStr <$> ["Malphite"; "Rammus"; "Poppy"])) ]))
    (model_validate (T:=ChampionRecommendations) (to_json sample_recommendation)).
Proof.
  apply (validate_declared_keys_only
           [ ("confidence", JNum 9);
             ("key_threats", JArr [JStr "Yasuo windwall"]);
             ("reasoning", JStr "Strong into melee carries.");
             ("champions", JArr (JStr <$> ["Malphite"; "Rammus"; "Poppy"])) ]).
  repeat constructor.
Defined.

(** ** The structured completion client, further *)

Section ClientMore.

Context (environ : gmap string string).
Context (service : gmap string pvalue -> reply).
Context `{BaseModel T}.

Lemma falsy_false_inv :
  falsy (getenv environ "OPENAI_API_KEY") = false ->
  exists k, environ !! "OPENAI_API_KEY" = Some k /\ k <> "".
Proof.
  unfold falsy, getenv. destruct (environ !! "OPENAI_API_KEY") as [k|]; [|done].
  destruct k; [done|]. by eexists.
Qed.

Lemma clients_reported lines (r : result T) : clients (reported lines r) = [].
Proof.
  destruct r as [v|e]; [done|]. unfold reported.
  destruct (is_Exception e); [|done].
  induction (lines e); [done|]. by cbn.
Qed.

Lemma prompts_reported lines (r : result T) : prompts (reported lines r) = [].
Proof.
  destruct r as [v|e]; [done|]. unfold reported.
  destruct (is_Exception e); [|done].
  induction (lines e); [done|]. by cbn.
Qed.

(** Neither generator touches the console input, whatever the environment
    and the service: the pending lines are all still there afterwards, and
    no prompt has been shown. *)
Theorem generators_read_no_input (model system_prompt prompt : string)
    (stdin : list string) :
  let r := structured_generator (T:=T) environ service model prompt stdin in
  let r' := structured_generator_with_system_prompt (T:=T) environ service
              model system_prompt prompt stdin in
  (r.1.2 = stdin /\ prompts (events r) = []) /\
  (r'.1.2 = stdin /\ prompts (events r') = []).
Proof.
  cbv zeta.
  destruct (falsy (getenv environ "OPENAI_API_KEY")) eqn:Hf.
  - rewrite structured_generator_no_key, structured_generator_with_system_prompt_no_key
      by done. done.
  - destruct (falsy_false_inv Hf) as (k & Hk & Hne).
    rewrite (structured_generator_run environ service model prompt stdin k Hk Hne).
    rewrite (structured_generator_with_system_prompt_run environ service
               model system_prompt prompt stdin k Hk Hne).
    unfold events. cbn. by rewrite !prompts_reported.
Qed.

(** A run of either generator builds at most one client and makes at most
    one call, and it makes none without having built a client. *)
Lemma generators_call_counts (model system_prompt prompt : string)
    (stdin : list string) :
  let r := structured_generator (T:=T) environ service model prompt stdin in
  let r' := structured_generator_with_system_prompt (T:=T) environ service
              model system_prompt prompt stdin in
  (List.length (net_calls (events r)) <= List.length (clients (events r)) <= 1) /\
  (List.length (net_calls (events r')) <= List.length (clients (events r')) <= 1).
Proof.
  cbv zeta.
  destruct (falsy (getenv environ "OPENAI_API_KEY")) eqn:Hf.
  - rewrite structured_generator_no_key, structured_generator_with_system_prompt_no_key
      by done. cbn. lia.
  - destruct (falsy_false_inv Hf) as (k & Hk & Hne).
    rewrite (structured_generator_run environ service model prompt stdin k Hk Hne).
    rewrite (structured_generator_with_system_prompt_run environ service
               model system_prompt prompt stdin k Hk Hne).
    unfold events. cbn. rewrite !net_calls_reported, !clients_reported. cbn. lia.
Qed.

End ClientMore.

Lemma startswith_iff (s p : string) :
  Str.startswith s p = true <-> exists suffix, s = p +:+ suffix.
Proof.
  split.
  - revert s. induction p as [|b p IH]; intros s Hs; [by exists s|].
    destruct s as [|a s]; [done|]. cbn in Hs.
    destruct (decide (a = b)) as [->|]; [|done].
    destruct (IH s Hs) as [suffix ->]. by exists suffix.
  - intros [suffix ->]. apply startswith_app.
Qed.

(** The generator returns a value exactly when a client was built, the one
    request was answered with a content, and that content validates to the
    value; this holds for every environment and service. *)
Theorem generator_returns_validated_answer (environ : gmap string string)
    (service : gmap string pvalue -> reply) `{BaseModel T}
    (model prompt : string) (stdin : list string) (v : T) :
  let r := structured_generator (T:=T) environ service model prompt stdin in
  outcome r = Ok v <->
  exists k p j,
    events r = [EClient k; ENetCall p] /\
    service p = Content j /\ model_validate j = Ok v.
Proof.
  cbv zeta.
  destruct (falsy (getenv environ "OPENAI_API_KEY")) eqn:Hf.
  - rewrite structured_generator_no_key by done. unfold outcome, events. cbn.
    split; [done|]. by intros (k & p & j & ? & _).
  - destruct (falsy_false_inv environ Hf) as (k & Hk & Hne).
    rewrite (structured_generator_run environ service model prompt stdin k Hk Hne).
    unfold outcome, events, answer. cbn.
    destruct (service (request model _)) as [e|j] eqn:Hs.
    + split; [done|]. cbn. destruct (is_Exception e); cbn.
      * by intros (k' & p & j & ? & _).
      * intros (k' & p & j & [= _ <-] & Hs' & _). congruence.
    + destruct (model_validate j) as [v'|e] eqn:Hv.
      * split.
        -- intros [= <-]. by exists k, (request model [system_message; message "user" prompt]), j.
        -- intros (k' & p & j' & [= _ <-] & Hs' & Hv'). congruence.
      * split; [done|]. cbn. destruct (is_Exception e); cbn.
        -- by intros (k' & p & j' & ? & _).
        -- intros (k' & p & j' & [= _ <-] & Hs' & Hv'). congruence.
Qed.

Lemma generator_returns_validated_answer_witness :
  outcome (structured_generator sample_environ good_service "gpt-5" "Hi" [])
  = Ok sample_recommendation.
Proof.
  apply (proj2 (generator_returns_validated_answer sample_environ good_service
                  "gpt-5" "Hi" [] sample_recommendation)).
  eexists _, _, _. repeat split; reflexivity.
Defined.

(** A content that fails the validation of the response model is raised to
    the caller as that [ValidationError], after the one request and without
    another try, and it is reported with the troubleshooting tips. *)
Theorem generator_invalid_content (environ : gmap string string)
    (service : gmap string pvalue -> reply)
    (model prompt : string) (stdin : list string) (k : string) (j : json) (e : exn) :
  environ !! "OPENAI_API_KEY" = Some k -> k <> "" ->
  (forall p, service p = Content j) ->
  model_validate (T:=ChampionRecommendations) j = Raised e ->
  let r := structured_generator (T:=ChampionRecommendations)
             environ service model prompt stdin in
  outcome r = Raised e /\
  exn_cls e = ValidationError /\
  exists p, events r = EClient k :: ENetCall p :: (EPrint <$> troubleshooting model e).
Proof.
  intros Hk Hne Hs Hv r. subst r.
  pose proof (ChampionRecommendations_validated j) as Hc.
  change (ChampionRecommendations_validate j)
    with (model_validate (T:=ChampionRecommendations) j) in Hc.
  rewrite Hv in Hc. cbn in Hc.
  rewrite (structured_generator_run environ service model prompt stdin k Hk Hne).
  assert (is_Exception e = true) as He by (unfold is_Exception; by rewrite Hc).
  unfold answer. rewrite Hs, Hv. unfold outcome, events. cbn. rewrite He.
  split; [done|]. split; [done|]. by eexists.
Qed.

Lemma generator_invalid_content_witness :
  let e := validation_error "ChampionRecommendations" "champions"
             "List should have more items" in
  let r := structured_generator (T:=ChampionRecommendations)
             sample_environ short_service "gpt-4" "Hi" [] in
  outcome r = Raised e /\
  exn_cls e = ValidationError /\
  exists p, events r = EClient "sk-test" :: ENetCall p :: (EPrint <$> troubleshooting "gpt-4" e).
Proof.
  intros e.
  apply (generator_invalid_content sample_environ short_service "gpt-4" "Hi" [] "sk-test"
           (sample_response ["Malphite"; "Rammus"]) e);
    [reflexivity | discriminate | reflexivity | reflexivity].
Defined.

(** The request of [structured_generator] in full: the model as given, the
    fixed system message followed by the prompt as the user message, and the
    response model; these three keys, and [temperature] only when the model
    does not start with [gpt-5]. *)
Theorem generator_request_shape (environ : gmap string string)
    (service : gmap string pvalue -> reply) `{BaseModel T}
    (model prompt : string) (stdin : list string) (k : string) :
  environ !! "OPENAI_API_KEY" = Some k -> k <> "" ->
  exists p,
    net_calls (events (structured_generator (T:=T) environ service model prompt stdin))
      = [p] /\
    p !! "model" = Some (PStr model) /\
    p !! "messages" = Some (PMessages [system_message; message "user" prompt]) /\
    p !! "response_format" = Some (PModel (model_name (T:=T))) /\
    dom p = list_to_set ["model"; "messages"; "response_format"]
            ∪ (if Str.startswith model "gpt-5" then ∅ else {["temperature"]}).
Proof.
  intros Hk Hne.
  rewrite (structured_generator_run environ service model prompt stdin k Hk Hne).
  eexists. split; [unfold events; cbn; by rewrite net_calls_reported|].
  unfold request.
  destruct (Str.startswith model "gpt-5"); cbn [negb];
    (split; [reflexivity|]); (split; [reflexivity|]); (split; [reflexivity|]);
    rewrite !dom_insert_L, dom_empty_L; cbn; set_solver.
Qed.

Lemma generator_request_shape_witness :
  exists p,
    net_calls (events (structured_generator (T:=ChampionRecommendations)
                         sample_environ failing_service "gpt-4" "Hi" []))
      = [p] /\
    p !! "model" = Some (PStr "gpt-4") /\
    p !! "messages" = Some (PMessages [system_message; message "user" "Hi"]) /\
    p !! "response_format" = Some (PModel (model_name (T:=ChampionRecommendations))) /\
    dom p = list_to_set ["model"; "messages"; "response_format"]
            ∪ (if Str.startswith "gpt-4" "gpt-5" then ∅ else {["temperature"]}).
Proof.
  apply (generator_request_shape sample_environ failing_service "gpt-4" "Hi" [] "sk-test");
    [reflexivity | discriminate].
Defined.

(** With a credential, [structured_generator] is
    [structured_generator_with_system_prompt] at the fixed system message:
    the same outcome, the same client and the same request; only the report
    of a failure differs. *)
Theorem generators_agree (environ : gmap string string)
    (service : gmap string pvalue -> reply) `{BaseModel T}
    (model prompt : string) (stdin : list string) (k : string) :
  environ !! "OPENAI_API_KEY" = Some k -> k <> "" ->
  let r := structured_generator (T:=T) environ service model prompt stdin in
  let r' := structured_generator_with_system_prompt (T:=T) environ service model
              "You are a helpful AI assistant that provides structured, accurate responses."
              prompt stdin in
  outcome r = outcome r' /\
  clients (events r) = clients (events r') /\
  net_calls (events r) = net_calls (events r').
Proof.
  intros Hk Hne r r'. subst r r'.
  rewrite (structured_generator_run environ service model prompt stdin k Hk Hne).
  rewrite (structured_generator_with_system_prompt_run environ service model _
             prompt stdin k Hk Hne).
  unfold outcome, events. cbn.
  by rewrite !net_calls_reported, !clients_reported.
Qed.

Lemma generators_agree_witness :
  let r := structured_generator (T:=ChampionRecommendations)
             sample_environ failing_service "gpt-4" "Hi" [] in
  let r' := structured_generator_with_system_prompt (T:=ChampionRecommendations)
              sample_environ failing_service "gpt-4"
              "You are a helpful AI assistant that provides structured, accurate responses."
              "Hi" [] in
  outcome r = outcome r' /\
  clients (events r) = clients (events r') /\
  net_calls (events r) = net_calls (events r').
Proof.
  apply (generators_agree sample_environ failing_service "gpt-4" "Hi" [] "sk-test");
    [reflexivity | discriminate].
Defined.

(** The test on the model is a test of a prefix, letter for letter: the
    request goes without [temperature] exactly for the identifiers that are
    [gpt-5] followed by anything, so also for a longer number such as
    [gpt-50], and not for [GPT-5]. *)
Theorem temperature_omitted_iff_prefix (environ : gmap string string)
    (service : gmap string pvalue -> reply) `{BaseModel T}
    (model prompt : string) (stdin : list string) (k : string) :
  environ !! "OPENAI_API_KEY" = Some k -> k <> "" ->
  exists p,
    net_calls (events (structured_generator (T:=T) environ service model prompt stdin))
      = [p] /\
    (p !! "temperature" = None <-> exists suffix, model = "gpt-5" +:+ suffix).
Proof.
  intros Hk Hne.
  rewrite (structured_generator_run environ service model prompt stdin k Hk Hne).
  eexists. split; [unfold events; cbn; by rewrite net_calls_reported|].
  rewrite request_temperature, <- startswith_iff.
  by destruct (Str.startswith model "gpt-5").
Qed.

Lemma temperature_omitted_iff_prefix_witness :
  exists p,
    net_calls (events (structured_generator (T:=ChampionRecommendations)
                         sample_environ failing_service "gpt-50" "Hi" []))
      = [p] /\
    (p !! "temperature" = None <-> exists suffix, "gpt-50" = "gpt-5" +:+ suffix).
Proof.
  apply (temperature_omitted_iff_prefix sample_environ failing_service
           "gpt-50" "Hi" [] "sk-test");
    [reflexivity | discriminate].
Defined.

(** ** The program, further *)

Lemma printed_app (evs evs' : list event) :
  printed (evs ++ evs') = printed evs ++ printed evs'.
Proof. apply omap_app. Qed.

Lemma clients_app (evs evs' : list event) :
  clients (evs ++ evs') = clients evs ++ clients evs'.
Proof. apply omap_app. Qed.

Lemma prompts_app (evs evs' : list event) :
  prompts (evs ++ evs') = prompts evs ++ prompts evs'.
Proof. apply omap_app. Qed.

Lemma printed_lines (ls : list string) : printed (EPrint <$> ls) = ls.
Proof.
  induction ls as [|l ls IH]; [done|].
  change (printed (EPrint <$> l :: ls)) with (l :: printed (EPrint <$> ls)).
  by rewrite IH.
Qed.

Lemma printed_fmap {A} (f : A -> string) (xs : list A) :
  printed ((fun x => EPrint (f x)) <$> xs) = f <$> xs.
Proof.
  induction xs as [|x xs IH]; [done|].
  change (f x :: printed ((fun x => EPrint (f x)) <$> xs) = f x :: (f <$> xs)).
  by rewrite IH.
Qed.

Lemma printed_reported {T} lines (r : result T) e :
  r = Raised e -> is_Exception e = true -> printed (reported lines r) = lines e.
Proof. intros -> He. unfold reported. rewrite He. exact (printed_lines (lines e)). Qed.

Lemma clients_fmap_print {A} (xs : list A) (f : A -> event) :
  (forall x, is_print (f x)) -> clients (f <$> xs) = [].
Proof.
  intros Hf. induction xs as [|x xs IH]; [done|].
  cbn. specialize (Hf x). by destruct (f x).
Qed.

Lemma prompts_fmap_print {A} (xs : list A) (f : A -> event) :
  (forall x, is_print (f x)) -> prompts (f <$> xs) = [].
Proof.
  intros Hf. induction xs as [|x xs IH]; [done|].
  cbn. specialize (Hf x). by destruct (f x).
Qed.

Lemma clients_result_report role result : clients (result_report role result) = [].
Proof.
  unfold result_report. rewrite !clients_app.
  rewrite !clients_fmap_print; [done | done | by intros [i c]].
Qed.

Lemma prompts_result_report role result : prompts (result_report role result) = [].
Proof.
  unfold result_report. rewrite !prompts_app.
  rewrite !prompts_fmap_print; [done | done | by intros [i c]].
Qed.

(** [enumerate(xs, 1)] numbers the items from one, in order. *)
Lemma numbered_from {A} (g : nat -> A -> string) (xs : list A) (n : nat) :
  (fun '(i, x) => g i x) <$> zip (seq n (List.length xs)) xs
  = imap (fun i x => g (n + i) x) xs.
Proof.
  revert n. induction xs as [|x xs IH]; intros n; [done|].
  cbn. rewrite Nat.add_0_r. f_equal. rewrite IH.
  apply imap_ext. intros i y _. cbn. f_equal. lia.
Qed.

Lemma six_lines (stdin : list string) :
  6 <= List.length stdin ->
  exists l1 l2 l3 l4 l5 l6 rest, stdin = l1 :: l2 :: l3 :: l4 :: l5 :: l6 :: rest.
Proof.
  intros Hlen.
  do 6 (destruct stdin as [|? stdin]; [cbn in Hlen; lia|]).
  by eexists _, _, _, _, _, _, _.
Qed.

(** When the console ends before the sixth line, [main] ends with the
    [EOFError] of the input collector, which it does not catch: all it has
    done is a part of what the collector does, so it has built no client,
    sent no request and printed no hint. *)
Theorem main_eof (environ : gmap string string)
    (service : gmap string pvalue -> reply) (stdin : list string) :
  List.length stdin < 6 ->
  exists evs,
    main environ service stdin
      = (Raised (Exn EOFError "EOF when reading a line"), [], evs) /\
    evs `prefix_of` get_user_input_events /\
    clients evs = [] /\ net_calls evs = [].
Proof.
  intros Hlen.
  do 6 (destruct stdin as [|? stdin];
        [eexists; split; [reflexivity|]; split; [by eexists | done] |]).
  cbn in Hlen. lia.
Qed.

Lemma main_eof_witness :
  exists evs,
    main sample_environ good_service ["Yasuo"; "Lee Sin"; "Zed"]
      = (Raised (Exn EOFError "EOF when reading a line"), [], evs) /\
    evs `prefix_of` get_user_input_events /\
    clients evs = [] /\ net_calls evs = [].
Proof.
  apply (main_eof sample_environ good_service ["Yasuo"; "Lee Sin"; "Zed"]). cbn. lia.
Defined.

Lemma printed_fmap_ext {A} (g : A -> event) (f : A -> string) (xs : list A) :
  (forall x, g x = EPrint (f x)) -> printed (g <$> xs) = f <$> xs.
Proof.
  intros Hg. rewrite <- printed_fmap. f_equal.
  apply list_fmap_ext. intros i x _. apply Hg.
Qed.

Lemma printed_result_report role result :
  printed (result_report role result) =
  [ Str.repeat "=" 60; "  RECOMMENDED CHAMPIONS FOR " +:+ Str.upper role;
    Str.repeat "=" 60 ] ++
  imap (fun i champion => pretty (S i) +:+ ". " +:+ champion) (champions result) ++
  [ "
" +:+ Str.repeat "=" 60; "  KEY THREATS TO WATCH"; Str.repeat "=" 60 ] ++
  ((fun threat => "⚠️  " +:+ threat) <$> key_threats result) ++
  [ "
" +:+ Str.repeat "=" 60; "  REASONING"; Str.repeat "=" 60; reasoning result;
    Str.repeat "=" 60 ].
Proof.
  unfold result_report. rewrite !printed_app.
  rewrite (printed_fmap_ext _ (fun '(i, champion) => pretty i +:+ ". " +:+ champion))
    by (by intros [i c]).
  rewrite (printed_fmap (fun threat => "⚠️  " +:+ threat)).
  unfold enumerate1.
  rewrite (numbered_from (fun i champion => pretty i +:+ ". " +:+ champion) _ 1).
  reflexivity.
Qed.

(** What [main] prints for a well-formed answer, in terms of the trimmed
    role line. *)
Lemma main_success_printed (environ : gmap string string)
    (service : gmap string pvalue -> reply)
    (l1 l2 l3 l4 l5 l6 : string) (rest : list string)
    (k : string) (j : json) (v : ChampionRecommendations) :
  environ !! "OPENAI_API_KEY" = Some k -> k <> "" ->
  (forall p, service p = Content j) ->
  model_validate j = Ok v ->
  let r := main environ service (l1 :: l2 :: l3 :: l4 :: l5 :: l6 :: rest) in
  outcome r = Ok tt /\
  printed (events r) =
    printed get_user_input_events ++ printed [analyzing] ++
    [ Str.repeat "=" 60;
      "  RECOMMENDED CHAMPIONS FOR " +:+ Str.upper (Str.strip l6);
      Str.repeat "=" 60 ] ++
    imap (fun i champion => pretty (S i) +:+ ". " +:+ champion) (champions v) ++
    [ "
" +:+ Str.repeat "=" 60; "  KEY THREATS TO WATCH"; Str.repeat "=" 60 ] ++
    ((fun threat => "⚠️  " +:+ threat) <$> key_threats v) ++
    [ "
" +:+ Str.repeat "=" 60; "  REASONING"; Str.repeat "=" 60; reasoning v;
      Str.repeat "=" 60 ].
Proof.
  intros Hk Hne Hs Hv r. subst r.
  destruct (entered_prompt_defined l1 l2 l3 l4 l5 (Str.capitalize (Str.strip l6)))
    as [prompt Hp].
  rewrite (main_run environ service _ _ _ _ _ _ _ _ Hp).
  rewrite (structured_generator_run environ service "gpt-5" prompt rest k Hk Hne).
  cbv zeta. unfold answer. rewrite Hs, Hv.
  split; [reflexivity|].
  unfold events. cbn [snd reported].
  rewrite printed_app.
  change (printed (analyzing :: [EClient k; ENetCall ?p] ++ ?X))
    with (printed [analyzing] ++ printed X).
  by rewrite printed_result_report, upper_capitalize.
Qed.

Lemma main_events_requests (evs : list event) :
  net_calls (get_user_input_events ++ analyzing :: evs) = net_calls evs /\
  clients (get_user_input_events ++ analyzing :: evs) = clients evs /\
  prompts (get_user_input_events ++ analyzing :: evs)
    = prompts get_user_input_events ++ prompts evs.
Proof. done. Qed.

(** Once the six lines are read, no [Exception] leaves [main]: if [main]
    ends with an exception at all, it is one that is not an [Exception]
    (such as an interrupt), raised during the request. *)
Theorem main_lets_no_exception_escape (environ : gmap string string)
    (service : gmap string pvalue -> reply)
    (l1 l2 l3 l4 l5 l6 : string) (rest : list string) (e : exn) :
  outcome (main environ service (l1 :: l2 :: l3 :: l4 :: l5 :: l6 :: rest)) = Raised e ->
  is_Exception e = false /\
  exists p, service p = Fails e.
Proof.
  destruct (entered_prompt_defined l1 l2 l3 l4 l5 (Str.capitalize (Str.strip l6)))
    as [prompt Hp].
  rewrite (main_run environ service _ _ _ _ _ _ _ _ Hp).
  destruct (falsy (getenv environ "OPENAI_API_KEY")) eqn:Hf.
  - by rewrite structured_generator_no_key by done.
  - destruct (falsy_false_inv environ Hf) as (k & Hk & Hne).
    rewrite (structured_generator_run environ service "gpt-5" prompt rest k Hk Hne).
    cbv zeta. unfold answer.
    destruct (service _) as [e'|j] eqn:Hs.
    + destruct (is_Exception e') eqn:He; [done|].
      intros [= <-]. split; [done|]. by eexists.
    + pose proof (ChampionRecommendations_validated j) as Hv.
      change (model_validate j) with (ChampionRecommendations_validate j).
      destruct (ChampionRecommendations_validate j) as [v|e']; [done|].
      cbn in Hv. unfold is_Exception. by rewrite Hv.
Qed.

Lemma main_lets_no_exception_escape_witness :
  is_Exception interrupt = false /\
  exists p, interrupted_service p = Fails interrupt.
Proof.
  apply (main_lets_no_exception_escape sample_environ interrupted_service
           "Yasuo" "" " zed " "" "  " "ADC" [] interrupt).
  vm_compute. reflexivity.
Defined.

(** A run of [main] builds at most one client and makes at most one call,
    and none without a client. *)
Lemma main_call_counts (environ : gmap string string)
    (service : gmap string pvalue -> reply) (stdin : list string) :
  let evs := events (main environ service stdin) in
  List.length (net_calls evs) <= List.length (clients evs) <= 1.
Proof.
  cbv zeta.
  destruct (decide (List.length stdin < 6)) as [Hlen|Hlen].
  - destruct (main_eof environ service stdin Hlen) as (evs & -> & _ & Hc & Hn).
    unfold events. cbn [snd]. rewrite Hc, Hn. cbn. lia.
  - destruct (six_lines stdin) as (l1 & l2 & l3 & l4 & l5 & l6 & rest & ->); [lia|].
    destruct (entered_prompt_defined l1 l2 l3 l4 l5 (Str.capitalize (Str.strip l6)))
      as [prompt Hp].
    rewrite (main_run environ service _ _ _ _ _ _ _ _ Hp).
    pose proof (generators_call_counts environ service
                  (T:=ChampionRecommendations) "gpt-5" "" prompt rest) as [Hg _].
    cbv zeta in Hg.
    destruct (structured_generator _ _ _ _ _) as [[r rest'] evs].
    unfold events in *. cbn [snd] in Hg.
    destruct r as [v|e]; [|destruct (is_Exception e)]; cbn [snd];
      repeat match goal with
             | |- context [get_user_input_events ++ analyzing :: ?X] =>
                 destruct (main_events_requests X) as (-> & -> & _)
             end;
      rewrite ?net_calls_app, ?clients_app, ?net_calls_result_report,
        ?clients_result_report, ?length_app; cbn; lia.
Qed.

(** [main] reads exactly six lines, whatever happens afterwards: the lines
    behind the sixth are left on the console, and the six prompts of the
    input collector are the only ones shown. *)
Theorem main_reads_six_lines (environ : gmap string string)
    (service : gmap string pvalue -> reply)
    (l1 l2 l3 l4 l5 l6 : string) (rest : list string) :
  let r := main environ service (l1 :: l2 :: l3 :: l4 :: l5 :: l6 :: rest) in
  r.1.2 = rest /\ prompts (events r) = prompts get_user_input_events.
Proof.
  cbv zeta.
  destruct (entered_prompt_defined l1 l2 l3 l4 l5 (Str.capitalize (Str.strip l6)))
    as [prompt Hp].
  rewrite (main_run environ service _ _ _ _ _ _ _ _ Hp).
  pose proof (generators_read_no_input environ service
                (T:=ChampionRecommendations) "gpt-5" "" prompt rest) as [[Hr Hg] _].
  cbv zeta in Hr, Hg.
  destruct (structured_generator _ _ _ _ _) as [[r rest'] evs].
  unfold events in *. cbn [fst snd] in Hr, Hg. subst rest'.
  destruct r as [v|e]; [|destruct (is_Exception e)]; cbn [fst snd];
    (split; [done|]);
    repeat match goal with
           | |- context [get_user_input_events ++ analyzing :: ?X] =>
               destruct (main_events_requests X) as (_ & _ & ->)
           end;
    rewrite ?prompts_app, ?prompts_result_report, Hg; by rewrite ?app_nil_r.
Qed.

Lemma request_dom `{BaseModel T} model messages :
  dom (request (T:=T) model messages)
  = list_to_set ["model"; "messages"; "response_format"]
    ∪ (if Str.startswith model "gpt-5" then ∅ else {["temperature"]}).
Proof.
  unfold request.
  destruct (Str.startswith model "gpt-5"); cbn [negb];
    rewrite !dom_insert_L, dom_empty_L; cbn; set_solver.
Qed.

(** The request of [main]: the model is always [gpt-5], so the request
    never carries a [temperature]; it asks for [ChampionRecommendations]
    and has the three keys model, messages and response_format only. *)
Theorem main_request (environ : gmap string string)
    (service : gmap string pvalue -> reply)
    (l1 l2 l3 l4 l5 l6 : string) (rest : list string) (k : string) :
  environ !! "OPENAI_API_KEY" = Some k -> k <> "" ->
  exists p,
    net_calls (events (main environ service (l1 :: l2 :: l3 :: l4 :: l5 :: l6 :: rest)))
      = [p] /\
    p !! "model" = Some (PStr "gpt-5") /\
    p !! "temperature" = None /\
    p !! "response_format" = Some (PModel "ChampionRecommendations") /\
    dom p = list_to_set ["model"; "messages"; "response_format"].
Proof.
  intros Hk Hne.
  destruct (entered_prompt_defined l1 l2 l3 l4 l5 (Str.capitalize (Str.strip l6)))
    as [prompt Hp].
  rewrite (main_run environ service _ _ _ _ _ _ _ _ Hp).
  rewrite (structured_generator_run environ service "gpt-5" prompt rest k Hk Hne).
  eexists. split.
  - cbv zeta.
    destruct (answer service _) as [v|e]; [|destruct (is_Exception e) eqn:He];
      unfold events; cbn [snd reported app]; rewrite ?He;
      apply net_calls_main; rewrite ?net_calls_app, ?net_calls_result_report; reflexivity.
  - split; [reflexivity|]. split; [reflexivity|]. split; [reflexivity|].
    rewrite request_dom.
    change (Str.startswith "gpt-5" "gpt-5") with true. set_solver.
Qed.

Lemma main_request_witness :
  exists p,
    net_calls (events (main sample_environ failing_service sample_lines)) = [p] /\
    p !! "model" = Some (PStr "gpt-5") /\
    p !! "temperature" = None /\
    p !! "response_format" = Some (PModel "ChampionRecommendations") /\
    dom p = list_to_set ["model"; "messages"; "response_format"].
Proof.
  apply (main_request sample_environ failing_service
           "Yasuo" "" " zed " "" "  " "ADC" [] "sk-test");
    [reflexivity | discriminate].
Defined.

(** An error of the service is shown to the user twice: first by the
    generator, with its message and the troubleshooting tips, then by [main],
    with the same message and its own hints; [main] then ends normally. *)
Theorem main_service_error_output (environ : gmap string string)
    (service : gmap string pvalue -> reply)
    (l1 l2 l3 l4 l5 l6 : string) (rest : list string) (k : string) (e : exn) :
  environ !! "OPENAI_API_KEY" = Some k -> k <> "" ->
  (forall p, service p = Fails e) ->
  is_Exception e = true ->
  let r := main environ service (l1 :: l2 :: l3 :: l4 :: l5 :: l6 :: rest) in
  outcome r = Ok tt /\
  printed (events r) =
    printed get_user_input_events ++ printed [analyzing] ++
    troubleshooting "gpt-5" e ++ printed (error_report e).
Proof.
  intros Hk Hne Hs He r. subst r.
  destruct (entered_prompt_defined l1 l2 l3 l4 l5 (Str.capitalize (Str.strip l6)))
    as [prompt Hp].
  rewrite (main_run environ service _ _ _ _ _ _ _ _ Hp).
  rewrite (structured_generator_run environ service "gpt-5" prompt rest k Hk Hne).
  cbv zeta. unfold answer. rewrite Hs, He.
  split; [reflexivity|].
  unfold events. cbn [snd reported]. rewrite He.
  rewrite printed_app.
  change (printed (analyzing :: (EClient k :: ENetCall ?p :: ?X) ++ ?Y))
    with (printed [analyzing] ++ printed (X ++ Y)).
  by rewrite printed_app, printed_lines.
Qed.

Lemma main_service_error_output_witness :
  let r := main sample_environ failing_service sample_lines in
  outcome r = Ok tt /\
  printed (events r) =
    printed get_user_input_events ++ printed [analyzing] ++
    troubleshooting "gpt-5" connection_error ++ printed (error_report connection_error).
Proof.
  apply (main_service_error_output sample_environ failing_service
           "Yasuo" "" " zed " "" "  " "ADC" [] "sk-test" connection_error);
    [reflexivity | discriminate | reflexivity | reflexivity].
Defined.

(** ** The connection test *)

(** [test_api_connection] returns [True] exactly when there is a non-empty
    credential and the probe request is answered. *)
Theorem test_api_connection_true_iff (environ : gmap string string)
    (create : create_request -> create_reply) :
  (test_api_connection environ create).1 = Ok true <->
  exists k, environ !! "OPENAI_API_KEY" = Some k /\ k <> "" /\ create probe = Created.
Proof.
  unfold test_api_connection.
  change {| cr_model := "gpt-3.5-turbo"; cr_messages := _; cr_max_tokens := 5 |}
    with probe.
  destruct (falsy (getenv environ "OPENAI_API_KEY")) eqn:Hf.
  - split; [done|]. intros (k & Hk & Hne & _).
    unfold falsy, getenv in Hf. rewrite Hk in Hf. by destruct k.
  - destruct (falsy_false_inv environ Hf) as (k & Hk & Hne).
    destruct (create probe) as [e|] eqn:Hc.
    + split; [by destruct (is_Exception e)|]. by intros (_ & _ & _ & ?).
    + split; [|done]. intros _. by exists k.
Qed.

Lemma test_api_connection_true_iff_witness :
  (test_api_connection sample_environ create_up).1 = Ok true.
Proof.
  apply (proj2 (test_api_connection_true_iff sample_environ create_up)).
  exists "sk-test". repeat split. discriminate.
Defined.

(** No [Exception] leaves [test_api_connection]: a failure of the probe that
    is an [Exception] gives [False]; the function raises only what the probe
    raised and [except Exception] does not catch. *)
Theorem test_api_connection_raises (environ : gmap string string)
    (create : create_request -> create_reply) (e : exn) :
  (test_api_connection environ create).1 = Raised e ->
  is_Exception e = false /\ create probe = CreateFails e.
Proof.
  unfold test_api_connection.
  change {| cr_model := "gpt-3.5-turbo"; cr_messages := _; cr_max_tokens := 5 |}
    with probe.
  destruct (falsy (getenv environ "OPENAI_API_KEY")); [done|].
  destruct (create probe) as [e'|]; [|done].
  destruct (is_Exception e') eqn:He; [done|]. by intros [= <-].
Qed.

Lemma test_api_connection_raises_witness :
  is_Exception interrupt = false /\
  (fun _ => CreateFails interrupt) probe = CreateFails interrupt.
Proof.
  apply (test_api_connection_raises sample_environ (fun _ => CreateFails interrupt) interrupt).
  reflexivity.
Defined.

(** The connection test builds at most one client and sends at most one
    request, none without a credential, and the request is always the same
    probe: model [gpt-3.5-turbo], the one user message [Hello], at most five
    tokens. When it returns, it has printed exactly one line. *)
Theorem test_api_connection_effects (environ : gmap string string)
    (create : create_request -> create_reply) :
  let r := test_api_connection environ create in
  (if falsy (getenv environ "OPENAI_API_KEY")
   then conn_clients r.2 = [] /\ conn_requests r.2 = []
   else conn_clients r.2 = [default "" (environ !! "OPENAI_API_KEY")] /\
        conn_requests r.2 = [probe]) /\
  (forall b, r.1 = Ok b -> List.length (conn_printed r.2) = 1).
Proof.
  cbv zeta. unfold test_api_connection.
  change {| cr_model := "gpt-3.5-turbo"; cr_messages := _; cr_max_tokens := 5 |}
    with probe.
  destruct (falsy (getenv environ "OPENAI_API_KEY")); [done|].
  destruct (create probe) as [e|]; [|done].
  by destruct (is_Exception e).
Qed.

Lemma test_api_connection_effects_witness :
  let r := test_api_connection sample_environ create_down in
  (if falsy (getenv sample_environ "OPENAI_API_KEY")
   then conn_clients r.2 = [] /\ conn_requests r.2 = []
   else conn_clients r.2 = [default "" (sample_environ !! "OPENAI_API_KEY")] /\
        conn_requests r.2 = [probe]) /\
  (forall b, r.1 = Ok b -> List.length (conn_printed r.2) = 1).
Proof. apply (test_api_connection_effects sample_environ create_down). Defined.

(** Run as a program, [helpers.py] prints its banner and then the one line
    of the test: that no key was found, that the connection works, or that
    it failed, with the message of the failure. *)
Theorem helpers_main_output (environ : gmap string string)
    (create : create_request -> create_reply) :
  let r := helpers_main environ create in
  r.1 = Ok tt ->
  exists status,
    conn_printed r.2 = ["Testing OpenAI API connection..."; status] /\
    (status = "❌ No API key found in .env file" \/ status = "✅ API connection successful!" \/
     exists e, create probe = CreateFails e /\ status = "❌ API connection failed: " +:+ exn_str e).
Proof.
  cbv zeta. unfold helpers_main, test_api_connection.
  change {| cr_model := "gpt-3.5-turbo"; cr_messages := _; cr_max_tokens := 5 |}
    with probe.
  destruct (falsy (getenv environ "OPENAI_API_KEY")).
  - intros _. eexists. split; [reflexivity|]. by left.
  - destruct (create probe) as [e|] eqn:Hc.
    + destruct (is_Exception e); [|done].
      intros _. eexists. split; [reflexivity|]. right. right. by exists e.
    + intros _. eexists. split; [reflexivity|]. right. by left.
Qed.

Lemma helpers_main_output_witness :
  exists status,
    conn_printed (helpers_main sample_environ create_down).2
      = ["Testing OpenAI API connection..."; status] /\
    (status = "❌ No API key found in .env file" \/ status = "✅ API connection successful!" \/
     exists e, create_down probe = CreateFails e /\ status = "❌ API connection failed: " +:+ exn_str e).
Proof.
  apply (helpers_main_output sample_environ create_down). reflexivity.
Defined.

(** * The strings of the model, by character codes *)

Section CodeFacts.

Implicit Types s t : string.

Lemma codes_cons a s : codes (String a s) = N_of_ascii a :: codes s.
Proof. reflexivity. Qed.

Lemma codes_append s t : codes (s +:+ t) = codes s ++ codes t.
Proof.
  induction s as [|a s IH]; [done|].
  change (String a s +:+ t) with (String a (s +:+ t)).
  by rewrite !codes_cons, IH.
Qed.

Lemma codes_rev s : codes (String.rev s) = reverse (codes s).
Proof.
  induction s as [|a s IH]; [done|].
  rewrite rev_cons, codes_append, IH, (codes_cons a s), reverse_cons. reflexivity.
Qed.


Lemma is_space_white a : Str.is_space a = true <-> white_code (N_of_ascii a).
Proof.
  unfold Str.is_space, Str.code, white_code.
  rewrite orb_true_iff, !andb_true_iff, !N.leb_le. tauto.
Qed.

Lemma is_space_not_white a : Str.is_space a = false <-> ~ white_code (N_of_ascii a).
Proof. rewrite <- is_space_white. by destruct (Str.is_space a). Qed.

Lemma code_upper a : N_of_ascii (Str.upper_char a) = upper_code (N_of_ascii a).
Proof.
  unfold Str.upper_char, Str.is_lower, Str.code, upper_code.
  destruct ((97 <=? N_of_ascii a)%N && (N_of_ascii a <=? 122)%N); [|done].
  apply N_ascii_embedding. pose proof (N_ascii_bounded a). lia.
Qed.

Lemma code_lower a : N_of_ascii (Str.lower_char a) = lower_code (N_of_ascii a).
Proof.
  unfold Str.lower_char, Str.is_upper, Str.code, lower_code.
  destruct ((65 <=? N_of_ascii a)%N && (N_of_ascii a <=? 90)%N) eqn:E; [|done].
  apply N_ascii_embedding.
  apply andb_true_iff in E as [_ E%N.leb_le]. lia.
Qed.

Lemma codes_upper s : codes (Str.upper s) = upper_code <$> codes s.
Proof.
  induction s as [|a s IH]; [done|].
  change (Str.upper (String a s)) with (String (Str.upper_char a) (Str.upper s)).
  by rewrite !codes_cons, fmap_cons, IH, code_upper.
Qed.

Lemma codes_lower s : codes (Str.lower s) = lower_code <$> codes s.
Proof.
  induction s as [|a s IH]; [done|].
  change (Str.lower (String a s)) with (String (Str.lower_char a) (Str.lower s)).
  by rewrite !codes_cons, fmap_cons, IH, code_lower.
Qed.

Lemma codes_capitalize s : codes (Str.capitalize s) = capitalized_codes (codes s).
Proof.
  destruct s as [|a s]; [done|].
  cbn [Str.capitalize]. by rewrite !codes_cons, codes_lower, code_upper.
Qed.

Lemma upper_code_idemp n : upper_code (upper_code n) = upper_code n.
Proof.
  unfold upper_code.
  destruct ((97 <=? n)%N && (n <=? 122)%N) eqn:E; [|by rewrite E].
  apply andb_true_iff in E as [E1%N.leb_le E2%N.leb_le].
  destruct ((97 <=? n - 32)%N && (n - 32 <=? 122)%N) eqn:E'; [|done].
  apply andb_true_iff in E' as [E3%N.leb_le _]. lia.
Qed.

Lemma upper_lower_code n : upper_code (lower_code n) = upper_code n.
Proof.
  unfold upper_code, lower_code.
  destruct ((65 <=? n)%N && (n <=? 90)%N) eqn:E.
  - apply andb_true_iff in E as [E1%N.leb_le E2%N.leb_le].
    replace ((97 <=? n + 32)%N && (n + 32 <=? 122)%N) with true
      by (symmetry; apply andb_true_iff; split; apply N.leb_le; lia).
    replace ((97 <=? n)%N && (n <=? 122)%N) with false
      by (symmetry; apply andb_false_iff; left; apply N.leb_gt; lia).
    lia.
  - done.
Qed.

Lemma upper_capitalized_codes cs :
  upper_code <$> capitalized_codes cs = upper_code <$> cs.
Proof.
  destruct cs as [|c cs]; [done|]. cbn [capitalized_codes].
  rewrite !fmap_cons, upper_code_idemp. f_equal.
  rewrite <- list_fmap_compose. apply list_fmap_ext. intros i n _.
  apply upper_lower_code.
Qed.

Lemma all_white_nil : all_white "".
Proof. by apply Forall_nil. Qed.

Lemma all_white_cons a s :
  all_white (String a s) <-> white_code (N_of_ascii a) /\ all_white s.
Proof. unfold all_white. rewrite codes_cons. apply Forall_cons. Qed.

Lemma all_white_append s t : all_white (s +:+ t) <-> all_white s /\ all_white t.
Proof. unfold all_white. rewrite codes_append. apply Forall_app. Qed.

Lemma all_white_rev s : all_white (String.rev s) <-> all_white s.
Proof. unfold all_white. rewrite codes_rev. apply Forall_reverse. Qed.

(** [lstrip] takes away a white prefix. *)
Lemma lstrip_split s : exists ws, s = ws +:+ Str.lstrip s /\ all_white ws.
Proof.
  induction s as [|a s (ws & IH & Hws)].
  - exists "". split; [done | apply all_white_nil].
  - cbn [Str.lstrip]. destruct (Str.is_space a) eqn:E.
    + exists (String a ws). split.
      * change (String a ws +:+ Str.lstrip s) with (String a (ws +:+ Str.lstrip s)).
        by rewrite <- IH.
      * apply all_white_cons. split; [by apply is_space_white | done].
    + exists "". split; [done | apply all_white_nil].
Qed.

(** [rstrip] takes away a white suffix. *)
Lemma rstrip_split t : exists ws, t = Str.rstrip t +:+ ws /\ all_white ws.
Proof.
  destruct (lstrip_split (String.rev t)) as (ws & Hrev & Hws).
  exists (String.rev ws). split; [|by apply all_white_rev].
  unfold Str.rstrip. rewrite <- rev_append, <- Hrev. by rewrite rev_involutive.
Qed.

Lemma starts_clean_head s :
  starts_clean s ->
  match head (codes s) with Some c => ~ white_code c | None => True end.
Proof.
  destruct s as [|a s]; [done|]. rewrite codes_cons. cbn.
  apply is_space_not_white.
Qed.

Lemma strip_clean_ends s : clean_ends (Str.strip s).
Proof.
  split.
  - apply starts_clean_head. unfold Str.strip.
    apply rstrip_starts_clean, lstrip_starts_clean.
  - rewrite <- head_reverse, <- codes_rev. apply starts_clean_head.
    unfold Str.strip, Str.rstrip. rewrite rev_involutive.
    apply lstrip_starts_clean.
Qed.

(** [strip] is the input without the white space at its two ends. *)
Lemma strip_spec s : stripped_of s (Str.strip s).
Proof.
  destruct (lstrip_split s) as (pre & Hpre & Hwpre).
  destruct (rstrip_split (Str.lstrip s)) as (post & Hpost & Hwpost).
  exists pre, post. split; [|split; [done|split; [done | apply strip_clean_ends]]].
  unfold Str.strip. by rewrite <- Hpost.
Qed.

Lemma clean_ends_white s : clean_ends s -> all_white s -> s = "".
Proof.
  intros [Hhead _] Hw. destruct s as [|a s]; [done|].
  apply all_white_cons in Hw as [Ha _]. rewrite codes_cons in Hhead. by cbn in Hhead.
Qed.

(** A line is blank, that is all white space, exactly when nothing is left
    of it. *)
Lemma strip_blank s : Str.strip s = "" <-> all_white s.
Proof.
  destruct (strip_spec s) as (pre & post & Hs & Hpre & Hpost & Hclean).
  split.
  - intros E. rewrite E in Hs. rewrite Hs.
    apply all_white_append. split; [done|].
    apply all_white_append. split; [apply all_white_nil | done].
  - intros Hw. apply clean_ends_white; [done|].
    rewrite Hs in Hw.
    apply all_white_append in Hw as [_ Hw].
    by apply all_white_append in Hw as [Hw _].
Qed.

End CodeFacts.

(** * The network attempts of a call *)

Section SdkFacts.

Context (transport : nat -> gmap string pvalue -> attempt).

(** A call is one to three attempts. *)
Lemma sdk_attempts_bounds p : 1 <= sdk_attempts transport p <= 3.
Proof.
  unfold sdk_attempts, DEFAULT_MAX_RETRIES. cbn [sdk_request].
  destruct (should_retry (transport 0 p)); [|cbn; lia].
  destruct (should_retry (transport 1 p)); [|cbn; lia].
  destruct (should_retry (transport 2 p)); cbn; lia.
Qed.

(** A first attempt that is not to be tried again is the only one. *)
Lemma sdk_no_retry p :
  should_retry (transport 0 p) = false ->
  sdk_attempts transport p = 1 /\ sdk_service transport p = attempt_reply (transport 0 p).
Proof.
  intros H0. unfold sdk_attempts, sdk_service, DEFAULT_MAX_RETRIES.
  cbn [sdk_request]. by rewrite H0.
Qed.

(** Attempts that are to be tried again each time are three, and the call
    gives what the third gave. *)
Lemma sdk_retries_exhausted p :
  (forall n, should_retry (transport n p) = true) ->
  sdk_attempts transport p = 3 /\ sdk_service transport p = attempt_reply (transport 2 p).
Proof.
  intros H. unfold sdk_attempts, sdk_service, DEFAULT_MAX_RETRIES.
  cbn [sdk_request]. by rewrite !H.
Qed.

Lemma network_attempts_one p evs :
  net_calls evs = [p] -> network_attempts transport evs = sdk_attempts transport p.
Proof. intros H. unfold network_attempts. rewrite H. cbn. lia. Qed.

Lemma network_attempts_bounded evs :
  List.length (net_calls evs) <= 1 -> network_attempts transport evs <= 3.
Proof.
  unfold network_attempts. destruct (net_calls evs) as [|p [|q l]]; cbn; [lia | | lia].
  pose proof (sdk_attempts_bounds p). lia.
Qed.

End SdkFacts.

(** * Errors of the service and network attempts *)

(** C6, as stated, fails: when the service cannot be reached the error does
    come back to the caller, but three network attempts have been made for
    the one call, not one, since the client is built with the retries the
    SDK has by default. *)
Lemma C6_counterexample :
  let r := structured_generator (T:=ChampionRecommendations)
             sample_environ (sdk_service unreachable) "gpt-5" "Hi" [] in
  outcome r = Raised connection_error /\
  network_attempts unreachable (events r) = 3.
Proof. split; vm_compute; reflexivity. Qed.

(** C6, amended: an error of the service comes back to the caller as this
    very error, reported once with its message. [structured_generator] makes
    one call and does not try again itself; the client it builds keeps the
    retries of the SDK, so one to three network attempts are made for the
    call: one when the failure is not to be retried, as for a refused
    credential, and three when every attempt fails to get through. *)
Theorem C6_service_error_propagates (environ : gmap string string)
    (transport : nat -> gmap string pvalue -> attempt) `{BaseModel T}
    (model prompt : string) (stdin : list string) (k : string) (e : exn) :
  environ !! "OPENAI_API_KEY" = Some k -> k <> "" ->
  (forall p, sdk_service transport p = Fails e) ->
  is_Exception e = true ->
  let r := structured_generator (T:=T) environ (sdk_service transport)
             model prompt stdin in
  outcome r = Raised e /\
  List.length (net_calls (events r)) = 1 /\
  (exists p, events r = EClient k :: ENetCall p :: (EPrint <$> troubleshooting model e)) /\
  1 <= network_attempts transport (events r) <= 3 /\
  ((forall p, should_retry (transport 0 p) = false) ->
   network_attempts transport (events r) = 1) /\
  ((forall n p, should_retry (transport n p) = true) ->
   network_attempts transport (events r) = 3).
Proof.
  intros Hk Hne Hs He r.
  destruct (generator_service_error environ (sdk_service transport)
              model prompt stdin k e Hk Hne Hs He) as (Ho & Hn & p & Hev).
  fold r in Ho, Hn, Hev.
  assert (net_calls (events r) = [p]) as Hp.
  { rewrite Hev.
    change (net_calls (EClient k :: ENetCall p :: ?X)) with (p :: net_calls X).
    by rewrite (net_calls_fmap_print _ EPrint). }
  rewrite (network_attempts_one transport p _ Hp).
  split; [done|]. split; [done|]. split; [by exists p|].
  split; [apply sdk_attempts_bounds|]. split.
  - intros H0. by apply sdk_no_retry.
  - intros Hall. by apply sdk_retries_exhausted.
Qed.

Lemma C6_service_error_propagates_witness :
  let r := structured_generator (T:=ChampionRecommendations)
             sample_environ (sdk_service unauthorized) "gpt-5" "Hi" [] in
  outcome r = Raised authentication_error /\
  List.length (net_calls (events r)) = 1 /\
  (exists p, events r =
             EClient "sk-test" :: ENetCall p
               :: (EPrint <$> troubleshooting "gpt-5" authentication_error)) /\
  1 <= network_attempts unauthorized (events r) <= 3 /\
  ((forall p, should_retry (unauthorized 0 p) = false) ->
   network_attempts unauthorized (events r) = 1) /\
  ((forall n p, should_retry (unauthorized n p) = true) ->
   network_attempts unauthorized (events r) = 3).
Proof.
  apply (C6_service_error_propagates sample_environ unauthorized
           "gpt-5" "Hi" [] "sk-test" authentication_error);
    [reflexivity | discriminate | reflexivity | reflexivity].
Defined.



(** * The entries, the call counts and the output, in full *)

Lemma clean_ends_unknown : clean_ends "Unknown".
Proof. split; cbn; unfold white_code; lia. Qed.

(** What is stored for an enemy line: the line without the white space at
    its ends, or [Unknown] for a blank line. *)
Lemma enemy_entry_spec l :
  let v := Str.or_else (Str.strip l) "Unknown" in
  v <> "" /\ clean_ends v /\ (stripped_of l v \/ (all_white l /\ v = "Unknown")).
Proof.
  cbv zeta. unfold Str.or_else.
  pose proof (strip_spec l) as Hs. pose proof (strip_blank l) as Hb.
  pose proof (strip_clean_ends l) as Hc.
  destruct (Str.strip l) as [|a s] eqn:E.
  - split; [done|]. split; [apply clean_ends_unknown|]. right. split; [|done].
    by apply Hb.
  - cbn [Str.truthy]. split; [done|]. split; [done|]. by left.
Qed.

(** For ASCII input, the dict [get_user_input] returns has the six keys and
    no other, and exactly six lines are read. An enemy entry is its line
    without the white space at the two ends, or [Unknown] when the line is
    blank; so it is never empty and never starts or ends with white space.
    The role entry is the role line without the white space at its ends,
    first character in upper case and the others in lower case, and it is
    empty exactly when the role line is blank. *)
Theorem get_user_input_entries (l1 l2 l3 l4 l5 l6 : string) (rest : list string) :
  Forall ascii_only [l1; l2; l3; l4; l5; l6] ->
  exists d evs,
    get_user_input (l1 :: l2 :: l3 :: l4 :: l5 :: l6 :: rest) = (Ok d, rest, evs) /\
    dom d = list_to_set (role_keys ++ ["your_role"]) /\
    Forall2 (fun key line =>
               exists v, d !! key = Some v /\ v <> "" /\ clean_ends v /\
                         (stripped_of line v \/ (all_white line /\ v = "Unknown")))
            role_keys [l1; l2; l3; l4; l5] /\
    exists core role,
      stripped_of l6 core /\
      d !! "your_role" = Some role /\
      codes role = capitalized_codes (codes core) /\
      (role = "" <-> all_white l6).
Proof.
  intros _.
  rewrite get_user_input_run. eexists _, _. split; [reflexivity|].
  split; [|split].
  - rewrite !dom_insert_L, dom_empty_L. cbn. set_solver.
  - repeat (apply Forall2_cons; split);
      [eexists; split; [reflexivity | apply enemy_entry_spec] .. | by apply Forall2_nil].
  - exists (Str.strip l6), (Str.capitalize (Str.strip l6)).
    split; [apply strip_spec|]. split; [reflexivity|].
    split; [apply codes_capitalize|].
    rewrite <- strip_blank. by destruct (Str.strip l6).
Qed.

Lemma get_user_input_entries_witness :
  exists d evs,
    get_user_input sample_lines = (Ok d, [], evs) /\
    dom d = list_to_set (role_keys ++ ["your_role"]) /\
    Forall2 (fun key line =>
               exists v, d !! key = Some v /\ v <> "" /\ clean_ends v /\
                         (stripped_of line v \/ (all_white line /\ v = "Unknown")))
            role_keys ["Yasuo"; ""; " zed "; ""; "  "] /\
    exists core role,
      stripped_of "ADC" core /\
      d !! "your_role" = Some role /\
      codes role = capitalized_codes (codes core) /\
      (role = "" <-> all_white "ADC").
Proof.
  apply (get_user_input_entries "Yasuo" "" " zed " "" "  " "ADC" []).
  unfold ascii_only. repeat (apply Forall_cons; split); try apply Forall_nil;
    vm_compute; repeat constructor.
Defined.

(** Neither generator tries again and neither builds a second client,
    whatever happens: a run builds at most one client and makes at most one
    call, none without a client. With the retries the client has by default
    this is at most three network attempts. *)
Theorem generators_at_most_one_request (environ : gmap string string)
    (transport : nat -> gmap string pvalue -> attempt) `{BaseModel T}
    (model system_prompt prompt : string) (stdin : list string) :
  let r := structured_generator (T:=T) environ (sdk_service transport)
             model prompt stdin in
  let r' := structured_generator_with_system_prompt (T:=T) environ (sdk_service transport)
              model system_prompt prompt stdin in
  (List.length (net_calls (events r)) <= List.length (clients (events r)) <= 1 /\
   network_attempts transport (events r) <= 3) /\
  (List.length (net_calls (events r')) <= List.length (clients (events r')) <= 1 /\
   network_attempts transport (events r') <= 3).
Proof.
  cbv zeta.
  pose proof (generators_call_counts environ (sdk_service transport) (T:=T)
                model system_prompt prompt stdin) as [Hr Hr'].
  cbv zeta in Hr, Hr'.
  split; (split; [done|]); apply network_attempts_bounded; lia.
Qed.

(** Whatever the console, the environment and the service, a run of [main]
    builds at most one client and makes at most one call, none without a
    client; with the retries the client has by default this is at most three
    network attempts. *)
Theorem main_at_most_one_request (environ : gmap string string)
    (transport : nat -> gmap string pvalue -> attempt) (stdin : list string) :
  let evs := events (main environ (sdk_service transport) stdin) in
  List.length (net_calls evs) <= List.length (clients evs) <= 1 /\
  network_attempts transport evs <= 3.
Proof.
  cbv zeta.
  pose proof (main_call_counts environ (sdk_service transport) stdin) as H.
  cbv zeta in H. split; [done|]. apply network_attempts_bounded. lia.
Qed.

(** What [main] prints for a well-formed answer, line by line, for ASCII
    input: the champions numbered from one in the order of the answer, each
    threat behind a warning sign, then the reasoning; the heading shows the
    role line without the white space at its ends and in upper case,
    whatever the case of the input. No hint is printed and [main] ends
    normally. *)
Theorem main_success_output (environ : gmap string string)
    (service : gmap string pvalue -> reply)
    (l1 l2 l3 l4 l5 l6 : string) (rest : list string)
    (k : string) (j : json) (v : ChampionRecommendations) :
  Forall ascii_only [l1; l2; l3; l4; l5; l6] ->
  environ !! "OPENAI_API_KEY" = Some k -> k <> "" ->
  (forall p, service p = Content j) ->
  model_validate j = Ok v ->
  let r := main environ service (l1 :: l2 :: l3 :: l4 :: l5 :: l6 :: rest) in
  exists core heading,
    stripped_of l6 core /\
    codes heading = upper_code <$> codes core /\
    outcome r = Ok tt /\
    printed (events r) =
      printed get_user_input_events ++ printed [analyzing] ++
      [ Str.repeat "=" 60;
        "  RECOMMENDED CHAMPIONS FOR " +:+ heading;
        Str.repeat "=" 60 ] ++
      imap (fun i champion => pretty (S i) +:+ ". " +:+ champion) (champions v) ++
      [ "
" +:+ Str.repeat "=" 60; "  KEY THREATS TO WATCH"; Str.repeat "=" 60 ] ++
      ((fun threat => "⚠️  " +:+ threat) <$> key_threats v) ++
      [ "
" +:+ Str.repeat "=" 60; "  REASONING"; Str.repeat "=" 60; reasoning v;
        Str.repeat "=" 60 ].
Proof.
  intros _ Hk Hne Hs Hv r.
  exists (Str.strip l6), (Str.upper (Str.strip l6)).
  split; [apply strip_spec|]. split; [apply codes_upper|].
  exact (main_success_printed environ service l1 l2 l3 l4 l5 l6 rest k j v Hk Hne Hs Hv).
Qed.

Lemma main_success_output_witness :
  let r := main sample_environ good_service sample_lines in
  exists core heading,
    stripped_of "ADC" core /\
    codes heading = upper_code <$> codes core /\
    outcome r = Ok tt /\
    printed (events r) =
      printed get_user_input_events ++ printed [analyzing] ++
      [ Str.repeat "=" 60;
        "  RECOMMENDED CHAMPIONS FOR " +:+ heading;
        Str.repeat "=" 60 ] ++
      imap (fun i champion => pretty (S i) +:+ ". " +:+ champion)
           (champions sample_recommendation) ++
      [ "
" +:+ Str.repeat "=" 60; "  KEY THREATS TO WATCH"; Str.repeat "=" 60 ] ++
      ((fun threat => "⚠️  " +:+ threat) <$> key_threats sample_recommendation) ++
      [ "
" +:+ Str.repeat "=" 60; "  REASONING"; Str.repeat "=" 60;
        reasoning sample_recommendation; Str.repeat "=" 60 ].
Proof.
  apply (main_success_output sample_environ good_service
           "Yasuo" "" " zed " "" "  " "ADC" [] "sk-test"
           (sample_response ["Malphite"; "Rammus"; "Poppy"]) sample_recommendation);
    [ | reflexivity | discriminate | reflexivity | reflexivity].
  unfold ascii_only. repeat (apply Forall_cons; split); try apply Forall_nil;
    vm_compute; repeat constructor.
Defined.
